(** * vista-boss: the user-management screen

    A shallow embedding of [src/pages/Users.tsx] (the list view with its
    delete flow) and [src/components/AddUserForm.tsx] (the validated
    creation form), followed by the properties of the two components.

    The two components are React function components.  Their handlers are
    [async] functions; they are embedded as small programs ([Async]) that
    run until they finish or suspend at an [await], the suspended rest being
    resumed when the awaited request settles. *)

From Stdlib Require Import String Ascii List ZArith NArith Bool Arith Lia.
Import ListNotations.
Open Scope string_scope.

(* ===================================================================== *)
(** * JavaScript values used by the two components *)
(* ===================================================================== *)

Module Js.

(** A JavaScript string is a sequence of UTF-16 code units and [.length]
    counts them.  Strings are embedded as [string], one [ascii] per code
    unit, which covers the code units U+0000 to U+00FF exactly. *)

(** One code unit of [String.prototype.toLowerCase]: in U+0000..U+00FF the
    letters with a lower-case mapping are A..Z and U+00C0..U+00DE except
    the multiplication sign U+00D7; each maps to the unit 32 above. *)
Definition lowerUnit (c : ascii) : ascii :=
  let n := N_of_ascii c in
  if (((65 <=? n) && (n <=? 90))
      || ((192 <=? n) && (n <=? 222) && negb (n =? 215)))%N
  then ascii_of_N (n + 32)
  else c.

Fixpoint toLowerCase (s : string) : string :=
  match s with
  | EmptyString => EmptyString
  | String c rest => String (lowerUnit c) (toLowerCase rest)
  end.

(** [s.includes(sub)]: [sub] occurs in [s] at some position. *)
Fixpoint includes (s sub : string) : bool :=
  String.prefix sub s
  || match s with
     | EmptyString => false
     | String _ rest => includes rest sub
     end.

(** What a rejected promise carries, as far as [catch (error)] looks at
    it: [error instanceof Error] and, if so, [error.message]. *)
Inductive Thrown : Type :=
| ErrorObj (message : string)
| NotAnError.

(** [!deleteId] for [deleteId : number | null]: [null] and [0] are falsy. *)
Definition not (deleteId : option Z) : bool :=
  match deleteId with
  | None => true
  | Some n => (n =? 0)%Z
  end.

(** Code units outside ASCII that occur in the literals of the source. *)
Definition a_acute : ascii := "225"%char.
Definition e_acute : ascii := "233"%char.
Definition n_tilde : ascii := "241"%char.

End Js.

(* ===================================================================== *)
(** * The API's data ([@/lib/api]) *)
(* ===================================================================== *)

Module Api.

(** [User], as the list view reads it. *)
Record User : Type := {
  id : Z;
  nombre : string;
  email : string;
  rol : string;
  createdAt : string
}.

End Api.

(** The form's values, [AddUserFormValues = z.infer<typeof formSchema>]; at
    run time [rol] is whatever string the select control holds. *)
Module Values.

Record AddUserFormValues : Type := {
  nombre : string;
  email : string;
  password : string;
  rol : string
}.

End Values.

(* ===================================================================== *)
(** * Requests, notifications and the programs of the handlers *)
(* ===================================================================== *)

(** The three operations of [api] that the components call. *)
Inductive Request : Type :=
| getUsers
| createUser (values : Values.AddUserFormValues)
| deleteUser (id : Z).

(** What the promise of each operation resolves with; the components use
    the result of [getUsers] only. *)
Definition Response (r : Request) : Type :=
  match r with
  | getUsers => list Api.User
  | createUser _ => unit
  | deleteUser _ => unit
  end.

(** The outcome of an [await]: the value, or the control transfer to the
    enclosing [catch]. *)
Inductive Outcome (T : Type) : Type :=
| Resolved (value : T)
| Rejected (error : Js.Thrown).
Arguments Resolved {T} value.
Arguments Rejected {T} error.

(** The argument of [toast({ title, description, variant })]. *)
Inductive ToastVariant : Type := variant_unset | variant_destructive.

Record Toast : Type := {
  title : string;
  description : string;
  variant : ToastVariant
}.

(** The issues of the zod schema, one constructor per issue code; the first
    two carry the message the schema gives, the last the rejected value. *)
Inductive Issue : Type :=
| too_small (message : string)
| invalid_string (message : string)
| invalid_enum_value (received : string).

(** [formState.errors]: at most one issue per field. *)
Record FieldErrors : Type := {
  nombre_error : option Issue;
  email_error : option Issue;
  password_error : option Issue;
  rol_error : option Issue
}.

(** The synchronous statements of the handlers: the state setters of the
    two components, [toast] and the console. *)
Inductive Action : Type :=
| setUsers (data : list Api.User)
| setIsLoading (b : bool)
| setDeleteId (d : option Z)
| setAddUserOpen (open : bool)
| setIsSubmitting (b : bool)
| toast (t : Toast)
| console_log (label : string) (arg : Z)
| console_error (label : string) (error : Js.Thrown).

(** A handler body.  [Await r k] calls the API operation [r] and suspends;
    [k] is the rest of the function, entered with the outcome.  [Call f k]
    calls [f] without awaiting it: [f] runs up to its first [await] (or its
    end) and the caller goes on with [k]. *)
Inductive Async : Type :=
| Done
| Act (a : Action) (k : Async)
| Await (r : Request) (k : Outcome (Response r) -> Async)
| Call (f : Async) (k : Async).

(** Sequencing: [p ;; q] runs [q] when [p] has run to its end, also across
    the awaits of [p]. *)
Fixpoint seq (p q : Async) : Async :=
  match p with
  | Done => q
  | Act a k => Act a (seq k q)
  | Await r k => Await r (fun o => seq (k o) q)
  | Call f k => Call f (seq k q)
  end.

Declare Scope async_scope.
Delimit Scope async_scope with async.
Bind Scope async_scope with Async.
Notation "p ;; q" := (seq p q) (at level 61, right associativity) : async_scope.
Notation "'do' a" := (Act a Done) (at level 60) : async_scope.
Open Scope async_scope.

(* ===================================================================== *)
(** * The state of the two components and of the pending requests *)
(* ===================================================================== *)

(** The [useState] cells of [Users]. *)
Record UsersState : Type := {
  users : list Api.User;
  isLoading : bool;
  deleteId : option Z;
  isAddUserOpen : bool
}.

(** One instance of [AddUserForm]: the values and errors that [useForm]
    keeps, and the [isSubmitting] cell.  The state is that of one instance,
    followed for as long as that instance stays mounted. *)
Record FormState : Type := {
  values : Values.AddUserFormValues;
  errors : FieldErrors;
  isSubmitting : bool
}.

(** What the components do to the outside, in order. *)
Inductive Obs : Type :=
| ObsToast (t : Toast)
| ObsConsoleLog (label : string) (arg : Z)
| ObsConsoleError (label : string) (error : Js.Thrown)
| ObsRequest (n : nat) (r : Request).

(** A suspended handler: the request it awaits and the rest of its body. *)
Inductive Parked : Type :=
| parked (r : Request) (k : Outcome (Response r) -> Async).

Record World : Type := {
  page : UsersState;
  form : FormState;
  trace : list Obs;
  pending : list (nat * Parked);
  nextRequest : nat
}.

Definition with_page (f : UsersState -> UsersState) (w : World) : World :=
  {| page := f (page w); form := form w; trace := trace w;
     pending := pending w; nextRequest := nextRequest w |}.

Definition with_form (f : FormState -> FormState) (w : World) : World :=
  {| page := page w; form := f (form w); trace := trace w;
     pending := pending w; nextRequest := nextRequest w |}.

Definition emit (o : Obs) (w : World) : World :=
  {| page := page w; form := form w; trace := trace w ++ [o];
     pending := pending w; nextRequest := nextRequest w |}.

(** The request goes out under a fresh number and the rest of the handler
    is parked under that number. *)
Definition park (r : Request) (k : Outcome (Response r) -> Async) (w : World)
  : World :=
  {| page := page w; form := form w;
     trace := trace w ++ [ObsRequest (nextRequest w) r];
     pending := pending w ++ [(nextRequest w, parked r k)];
     nextRequest := S (nextRequest w) |}.

Definition perform (a : Action) (w : World) : World :=
  match a with
  | setUsers data =>
      with_page (fun s => {| users := data; isLoading := isLoading s;
                             deleteId := deleteId s;
                             isAddUserOpen := isAddUserOpen s |}) w
  | setIsLoading b =>
      with_page (fun s => {| users := users s; isLoading := b;
                             deleteId := deleteId s;
                             isAddUserOpen := isAddUserOpen s |}) w
  | setDeleteId d =>
      with_page (fun s => {| users := users s; isLoading := isLoading s;
                             deleteId := d;
                             isAddUserOpen := isAddUserOpen s |}) w
  | setAddUserOpen open =>
      with_page (fun s => {| users := users s; isLoading := isLoading s;
                             deleteId := deleteId s;
                             isAddUserOpen := open |}) w
  | setIsSubmitting b =>
      with_form (fun s => {| values := values s; errors := errors s;
                             isSubmitting := b |}) w
  | toast t => emit (ObsToast t) w
  | console_log label arg => emit (ObsConsoleLog label arg) w
  | console_error label error => emit (ObsConsoleError label error) w
  end.

(** Running a handler from the current state until it ends or suspends. *)
Fixpoint exec (p : Async) (w : World) : World :=
  match p with
  | Done => w
  | Act a k => exec k (perform a w)
  | Await r k => park r k w
  | Call f k => exec k (exec f w)
  end.

(* ===================================================================== *)
(** * [src/pages/Users.tsx] *)
(* ===================================================================== *)

Definition toast_load_failed : Toast :=
  {| title := "Error";
     description := "No se pudieron cargar los usuarios";
     variant := variant_destructive |}.

(** The rest of [fetchUsers] after [await api.getUsers()]: the [try] goes
    on, or the [catch] runs; the [finally] runs in both cases. *)
Definition fetchUsers_resume (o : Outcome (list Api.User)) : Async :=
  match o with
  | Resolved data => do (setUsers data)
  | Rejected _ => do (toast toast_load_failed)
  end ;;
  do (setIsLoading false).

Definition fetchUsers : Async :=
  Act (setIsLoading true) (Await getUsers fetchUsers_resume).

Definition toast_deleted : Toast :=
  {| title := "Usuario eliminado";
     description := "El usuario ha sido eliminado exitosamente";
     variant := variant_unset |}.

Definition msg_delete_generic : string := "No se pudo eliminar el usuario".
Definition msg_delete_500 : string :=
  "Error del servidor: El usuario no puede ser eliminado (posiblemente tiene datos relacionados o es un administrador)".
Definition msg_delete_403 : string :=
  "No tienes permisos para eliminar este usuario".
Definition msg_delete_404 : string := "El usuario no fue encontrado".

(** [errorMessage] as the [catch] block of [handleDelete] computes it. *)
Definition deleteErrorMessage (error : Js.Thrown) : string :=
  match error with
  | Js.ErrorObj message =>
      if Js.includes message "500" then msg_delete_500
      else if Js.includes message "403" then msg_delete_403
      else if Js.includes message "404" then msg_delete_404
      else msg_delete_generic
  | Js.NotAnError => msg_delete_generic
  end.

Definition toast_error (message : string) : Toast :=
  {| title := "Error"; description := message;
     variant := variant_destructive |}.

(** The rest of [handleDelete] after [await api.deleteUser(deleteId)]. *)
Definition handleDelete_resume (o : Outcome unit) : Async :=
  match o with
  | Resolved _ =>
      do (toast toast_deleted) ;;
      Call fetchUsers Done
  | Rejected error =>
      do (console_error "Delete user error:" error) ;;
      do (toast (toast_error (deleteErrorMessage error)))
  end ;;
  do (setDeleteId None).

(** [handleDelete] closes over the [deleteId] of the render it belongs to. *)
Definition handleDelete (deleteId : option Z) : Async :=
  if Js.not deleteId then Done
  else match deleteId with
       | Some id => Await (deleteUser id) handleDelete_resume
       | None => Done
       end.

Inductive BadgeVariant : Type :=
| badge_default
| badge_secondary
| badge_outline.

Definition getRoleBadgeVariant (role : string) : BadgeVariant :=
  let r := Js.toLowerCase role in
  if (r =? "admin")%string then badge_default
  else if (r =? "comerciante")%string then badge_secondary
  else if (r =? "creador de ruta")%string then badge_outline
  else badge_outline.

(** The element tree that [Users] returns, as far as it carries behaviour:
    the rows with their badge and delete button, and the [open] flags of the
    two dialogs.  The date cell is left as the raw [createdAt]. *)
Record DeleteButton : Type := {
  disabled : bool;
  button_title : option string;
  onClick : Async
}.

Record Row : Type := {
  key : Z;
  nombre_cell : string;
  email_cell : string;
  badge : BadgeVariant;
  badge_text : string;
  createdAt_cell : string;
  button : DeleteButton
}.

Inductive View : Type :=
| Skeleton
| Page (total : nat) (rows : list Row) (alert_open : bool) (add_open : bool).

(** [user.rol?.toLowerCase() === 'admin'], the test of the button's
    [disabled] and [title]; [rol] is a string in every [User], on which
    [?.] is the plain member access. *)
Definition isAdmin (user : Api.User) : bool :=
  (Js.toLowerCase (Api.rol user) =? "admin")%string.

Definition renderRow (user : Api.User) : Row :=
  {| key := Api.id user;
     nombre_cell := Api.nombre user;
     email_cell := Api.email user;
     badge := getRoleBadgeVariant (Api.rol user);
     badge_text := Api.rol user;
     createdAt_cell := Api.createdAt user;
     button :=
       {| disabled := isAdmin user;
          button_title :=
            if isAdmin user
            then Some "No se puede eliminar administradores"
            else None;
          onClick :=
            do (console_log "Delete clicked for user:" (Api.id user)) ;;
            do (setDeleteId (Some (Api.id user))) |} |}.

Definition render (s : UsersState) : View :=
  if isLoading s then Skeleton
  else Page (length (users s))
            (map renderRow (users s))
            (match deleteId s with Some _ => true | None => false end)
            (isAddUserOpen s).

(** [onOpenChange] of the confirmation dialog. *)
Definition alertOnOpenChange (open : bool) : Async :=
  if negb open then do (setDeleteId None) else Done.

(* ===================================================================== *)
(** * [src/components/AddUserForm.tsx] *)
(* ===================================================================== *)

Definition msg_nombre : string :=
  "El nombre debe tener al menos 3 caracteres".
Definition msg_email : string :=
  "Email inv" ++ String Js.a_acute "lido".
Definition msg_password : string :=
  "La contrase" ++ String Js.n_tilde "a debe tener al menos 6 caracteres".

Definition roles : list string := ["admin"; "comerciante"; "creador de ruta"].

Definition isRole (s : string) : bool :=
  existsb (fun r => (s =? r)%string) roles.

(** [formSchema].  The pattern behind [z.string().email()] belongs to zod
    and is taken as the parameter [isEmail]. *)
Definition formSchema (isEmail : string -> bool)
    (v : Values.AddUserFormValues) : FieldErrors :=
  {| nombre_error :=
       if (String.length (Values.nombre v) <? 3)%nat
       then Some (too_small msg_nombre) else None;
     email_error :=
       if isEmail (Values.email v)
       then None else Some (invalid_string msg_email);
     password_error :=
       if (String.length (Values.password v) <? 6)%nat
       then Some (too_small msg_password) else None;
     rol_error :=
       if isRole (Values.rol v)
       then None else Some (invalid_enum_value (Values.rol v)) |}.

Definition isSome {A : Type} (o : option A) : bool :=
  match o with Some _ => true | None => false end.

Definition hasErrors (e : FieldErrors) : bool :=
  isSome (nombre_error e) || isSome (email_error e)
  || isSome (password_error e) || isSome (rol_error e).

Definition defaultValues : Values.AddUserFormValues :=
  {| Values.nombre := ""; Values.email := ""; Values.password := "";
     Values.rol := "comerciante" |}.

Record AddUserFormProps : Type := {
  onUserAdded : Async;
  setOpen : bool -> Async
}.

Definition toast_created : Toast :=
  {| title := "Usuario creado";
     description := "El nuevo usuario ha sido agregado exitosamente.";
     variant := variant_unset |}.

Definition msg_create_fallback : string :=
  "No se pudo crear el usuario. Int" ++ String Js.e_acute "ntalo de nuevo.".

Definition createErrorMessage (error : Js.Thrown) : string :=
  match error with
  | Js.ErrorObj message => message
  | Js.NotAnError => msg_create_fallback
  end.

(** The rest of [onSubmit] after [await api.createUser(values)]. *)
Definition onSubmit_resume (props : AddUserFormProps) (o : Outcome unit)
  : Async :=
  match o with
  | Resolved _ =>
      do (toast toast_created) ;;
      Call (onUserAdded props) Done ;;
      Call (setOpen props false) Done
  | Rejected error =>
      do (toast (toast_error (createErrorMessage error)))
  end ;;
  do (setIsSubmitting false).

Definition onSubmit (props : AddUserFormProps)
    (values : Values.AddUserFormValues) : Async :=
  Act (setIsSubmitting true)
      (Await (createUser values) (onSubmit_resume props)).

(** [form.handleSubmit(onSubmit)] with [zodResolver(formSchema)]: the values
    are checked against the schema, the issues become the form's errors,
    and [onSubmit] is called only when there is none. *)
Definition handleSubmit (isEmail : string -> bool)
    (onValid : Values.AddUserFormValues -> Async) (w : World) : World :=
  let e := formSchema isEmail (values (form w)) in
  let w1 := with_form (fun s => {| values := values s; errors := e;
                                   isSubmitting := isSubmitting s |}) w in
  if hasErrors e then w1 else exec (onValid (values (form w))) w1.

(** The props that [Users] passes to the form. *)
Definition addUserFormProps : AddUserFormProps :=
  {| onUserAdded := Call fetchUsers Done;
     setOpen := fun open => do (setAddUserOpen open) |}.

(* ===================================================================== *)
(** * The interface: what the user and the network can do *)
(* ===================================================================== *)

(** How a pending request settles. *)
Inductive Settlement : Type :=
| fulfil_users (data : list Api.User)
| fulfil_void
| reject (error : Js.Thrown).

(** The outcome handed to the awaiting handler; a settlement of the wrong
    shape for the request does not occur. *)
Definition outcome_for (r : Request) (s : Settlement)
  : option (Outcome (Response r)) :=
  match r as r0 return option (Outcome (Response r0)) with
  | getUsers =>
      match s with
      | fulfil_users data => Some (Resolved data)
      | fulfil_void => None
      | reject error => Some (Rejected error)
      end
  | createUser _ =>
      match s with
      | fulfil_users _ => None
      | fulfil_void => Some (Resolved tt)
      | reject error => Some (Rejected error)
      end
  | deleteUser _ =>
      match s with
      | fulfil_users _ => None
      | fulfil_void => Some (Resolved tt)
      | reject error => Some (Rejected error)
      end
  end.

Fixpoint lookup (n : nat) (l : list (nat * Parked)) : option Parked :=
  match l with
  | [] => None
  | (m, e) :: rest => if Nat.eqb n m then Some e else lookup n rest
  end.

Fixpoint remove (n : nat) (l : list (nat * Parked)) : list (nat * Parked) :=
  match l with
  | [] => []
  | (m, e) :: rest => if Nat.eqb n m then rest else (m, e) :: remove n rest
  end.

Definition unpark (n : nat) (w : World) : World :=
  {| page := page w; form := form w; trace := trace w;
     pending := remove n (pending w); nextRequest := nextRequest w |}.

(** Request [n] settles: the handler parked on it goes on. *)
Definition settle (n : nat) (s : Settlement) (w : World) : World :=
  match lookup n (pending w) with
  | None => w
  | Some (parked r k) =>
      match outcome_for r s with
      | None => w
      | Some o => exec (k o) (unpark n w)
      end
  end.

Inductive Field : Type := f_nombre | f_email | f_password | f_rol.

Definition setValue (f : Field) (s : string) (v : Values.AddUserFormValues)
  : Values.AddUserFormValues :=
  match f with
  | f_nombre =>
      {| Values.nombre := s; Values.email := Values.email v;
         Values.password := Values.password v; Values.rol := Values.rol v |}
  | f_email =>
      {| Values.nombre := Values.nombre v; Values.email := s;
         Values.password := Values.password v; Values.rol := Values.rol v |}
  | f_password =>
      {| Values.nombre := Values.nombre v; Values.email := Values.email v;
         Values.password := s; Values.rol := Values.rol v |}
  | f_rol =>
      {| Values.nombre := Values.nombre v; Values.email := Values.email v;
         Values.password := Values.password v; Values.rol := s |}
  end.

(** What can happen to the screen.  The dialogs are widgets of the
    component library: when one of them opens or closes, also as a
    consequence of a click on one of its buttons, it calls the
    [onOpenChange] it was given, which is an event of its own here. *)
Inductive Event : Type :=
| ClickDelete (i : nat)            (* the delete button of the i-th row *)
| ClickCancelDelete                (* AlertDialogCancel *)
| ClickConfirmDelete               (* AlertDialogAction *)
| AlertOpenChange (open : bool)    (* the confirmation dialog opens/closes *)
| AddDialogOpenChange (open : bool) (* the creation dialog opens/closes *)
| Input (f : Field) (s : string)   (* a form control changes *)
| ClickFormCancel                  (* "Cancelar" in the form *)
| SubmitForm                       (* "Crear Usuario" / form submission *)
| Settle (n : nat) (s : Settlement).

(** Events are handled one at a time, each on the state the previous one
    left: the handlers of an event are those of the last render.  An event
    reaches a handler only through an element that is rendered and not
    disabled: nothing of the page while the skeleton is shown, the buttons
    of the confirmation dialog only while it is open, the delete button of
    a row unless [disabled], the submit button unless [isSubmitting].
    [Input], [ClickFormCancel] and [SubmitForm] are the events of the form
    instance that is mounted; [SubmitForm] is the submit event of the form
    element, which the browser fires only after its own check of the
    fields. *)
Definition step (isEmail : string -> bool) (e : Event) (w : World) : World :=
  match e with
  | ClickDelete i =>
      match render (page w) with
      | Skeleton => w
      | Page _ rows _ _ =>
          match nth_error rows i with
          | None => w
          | Some row =>
              if disabled (button row) then w
              else exec (onClick (button row)) w
          end
      end
  | ClickCancelDelete =>
      match render (page w) with
      | Page _ _ true _ => exec (do (setDeleteId None)) w
      | _ => w
      end
  | ClickConfirmDelete =>
      match render (page w) with
      | Page _ _ true _ => exec (handleDelete (deleteId (page w))) w
      | _ => w
      end
  | AlertOpenChange open =>
      match render (page w) with
      | Page _ _ _ _ => exec (alertOnOpenChange open) w
      | Skeleton => w
      end
  | AddDialogOpenChange open =>
      match render (page w) with
      | Page _ _ _ _ => exec (do (setAddUserOpen open)) w
      | Skeleton => w
      end
  | Input f s =>
      with_form (fun st => {| values := setValue f s (values st);
                              errors := errors st;
                              isSubmitting := isSubmitting st |}) w
  | ClickFormCancel => exec (setOpen addUserFormProps false) w
  | SubmitForm =>
      if isSubmitting (form w) then w
      else handleSubmit isEmail (onSubmit addUserFormProps) w
  | Settle n s => settle n s w
  end.

Definition noErrors : FieldErrors :=
  {| nombre_error := None; email_error := None;
     password_error := None; rol_error := None |}.

(** The state before the first render. *)
Definition initial : World :=
  {| page := {| users := []; isLoading := true; deleteId := None;
                isAddUserOpen := false |};
     form := {| values := defaultValues; errors := noErrors;
                isSubmitting := false |};
     trace := [];
     pending := [];
     nextRequest := 0 |}.

(** [useEffect(() => { fetchUsers(); }, [])]. *)
Definition mounted : World := exec fetchUsers initial.

Definition run (isEmail : string -> bool) (es : list Event) (w : World)
  : World :=
  fold_left (fun w e => step isEmail e w) es w.

(** The states the screen can be in. *)
Inductive reachable (isEmail : string -> bool) : World -> Prop :=
| reach_mounted : reachable isEmail mounted
| reach_step e w :
    reachable isEmail w -> reachable isEmail (step isEmail e w).

(** The requests of a given kind that are in flight. *)
Definition isCreate (e : nat * Parked) : bool :=
  match snd e with
  | parked (createUser _) _ => true
  | parked _ _ => false
  end.

Definition createInFlight (w : World) : nat :=
  length (filter isCreate (pending w)).

Definition isGetUsersObs (o : Obs) : bool :=
  match o with
  | ObsRequest _ getUsers => true
  | _ => false
  end.

Definition isCreateObs (o : Obs) : bool :=
  match o with
  | ObsRequest _ (createUser _) => true
  | _ => false
  end.

Definition isDeleteObs (id : Z) (o : Obs) : bool :=
  match o with
  | ObsRequest _ (deleteUser n) => (n =? id)%Z
  | _ => false
  end.

Definition isToastObs (o : Obs) : bool :=
  match o with
  | ObsToast _ => true
  | _ => false
  end.

(* ===================================================================== *)
(** * The handlers that can be suspended, and sample states *)
(* ===================================================================== *)

(** The three places where a handler of the screen awaits a request. *)
Definition known (e : Parked) : Prop :=
  match e with
  | parked r k =>
      match r as r0 return (Outcome (Response r0) -> Async) -> Prop with
      | getUsers => fun k => k = fetchUsers_resume
      | createUser _ => fun k => k = onSubmit_resume addUserFormProps
      | deleteUser id => fun k => id <> 0%Z /\ k = handleDelete_resume
      end k
  end.

(** What holds in every state of the screen: the parked handlers are the
    known ones, a [createUser] request is in flight exactly while
    [isSubmitting] is set, and no [deleteUser(0)] was ever sent. *)
Definition Inv (w : World) : Prop :=
  Forall (fun ne => known (snd ne)) (pending w)
  /\ createInFlight w = (if isSubmitting (form w) then 1 else 0)
  /\ forall n, ~ In (ObsRequest n (deleteUser 0)) (trace w).

Definition rowsOf (v : View) : list Row :=
  match v with
  | Skeleton => []
  | Page _ rows _ _ => rows
  end.

Definition alertOpenOf (v : View) : bool :=
  match v with
  | Skeleton => false
  | Page _ _ open _ => open
  end.

Module Sample.

Definition ana : Api.User :=
  {| Api.id := 3; Api.nombre := "Ana"; Api.email := "ana@example.com";
     Api.rol := "comerciante"; Api.createdAt := "2024-05-01T10:00:00Z" |}.

Definition zed : Api.User :=
  {| Api.id := 0; Api.nombre := "Zed"; Api.email := "zed@example.com";
     Api.rol := "creador de ruta";
     Api.createdAt := "2024-05-02T10:00:00Z" |}.

Definition root : Api.User :=
  {| Api.id := 7; Api.nombre := "Root"; Api.email := "root@example.com";
     Api.rol := "admin"; Api.createdAt := "2024-05-03T10:00:00Z" |}.

Definition eva : Api.User :=
  {| Api.id := 9; Api.nombre := "Eva"; Api.email := "eva@example.com";
     Api.rol := "ADMIN"; Api.createdAt := "2024-05-04T10:00:00Z" |}.

(** A stand-in for zod's e-mail pattern, for the sample runs only. *)
Definition isEmail (s : string) : bool :=
  Js.includes s "@" && Js.includes s ".".

(** The list has arrived. *)
Definition loaded : World :=
  step isEmail (Settle 0 (fulfil_users [ana; zed; root; eva])) mounted.

(** Delete was clicked and confirmed on Ana's row; request 1 is out. *)
Definition deleting : World :=
  step isEmail ClickConfirmDelete (step isEmail (ClickDelete 0) loaded).

(** Delete was clicked on Zed's row (id 0); the dialog is open. *)
Definition askingZed : World :=
  step isEmail (ClickDelete 1) loaded.

(** The creation dialog is open and filled in, name too short. *)
Definition filledShort : World :=
  step isEmail (Input f_rol "admin")
    (step isEmail (Input f_password "secret1")
      (step isEmail (Input f_email "a@b.com")
        (step isEmail (Input f_nombre "Jo")
          (step isEmail (AddDialogOpenChange true) loaded)))).

(** The creation dialog is open and filled in with valid values. *)
Definition filled : World :=
  step isEmail (Input f_password "secret1")
    (step isEmail (Input f_email "john@example.com")
      (step isEmail (Input f_nombre "John Doe")
        (step isEmail (AddDialogOpenChange true) loaded))).

(** The form was submitted; request 1 is out. *)
Definition submitting : World :=
  step isEmail SubmitForm filled.

End Sample.

(* ===================================================================== *)
(** * Further definitions for the properties of the whole screen *)
(* ===================================================================== *)

(** The options of the role select of the form, [SelectItem value=...]. *)
Record SelectItem : Type := {
  item_value : string;
  item_label : string
}.

Definition roleItems : list SelectItem :=
  [ {| item_value := "admin"; item_label := "Admin" |};
    {| item_value := "comerciante"; item_label := "Comerciante" |};
    {| item_value := "creador de ruta"; item_label := "Creador de Ruta" |} ].

(** An event as the controls of the form can produce it: the text inputs
    give any string, the select gives the value of one of its items. *)
Definition fromControls (e : Event) : bool :=
  match e with
  | Input f_rol s =>
      existsb (fun item => (s =? item_value item)%string) roleItems
  | _ => true
  end.

Definition isGetUsers (e : nat * Parked) : bool :=
  match snd e with
  | parked getUsers _ => true
  | parked _ _ => false
  end.

Definition getUsersInFlight (w : World) : nat :=
  length (filter isGetUsers (pending w)).

Definition variant_eqb (a b : ToastVariant) : bool :=
  match a, b with
  | variant_unset, variant_unset => true
  | variant_destructive, variant_destructive => true
  | _, _ => false
  end.

Definition toast_eqb (a b : Toast) : bool :=
  (title a =? title b)%string
  && (description a =? description b)%string
  && variant_eqb (variant a) (variant b).

(** The notification [t], in the trace. *)
Definition isToast (t : Toast) (o : Obs) : bool :=
  match o with
  | ObsToast t' => toast_eqb t' t
  | _ => false
  end.

(** More of what holds in every state of the screen: the skeleton is shown
    only while a [getUsers] request is in flight; the list was asked for
    once at the start and once after every deletion and creation that
    succeeded; and the values of every [createUser] request passed the
    schema. *)
Definition Inv2 (isEmail : string -> bool) (w : World) : Prop :=
  (isLoading (page w) = true -> 1 <= getUsersInFlight w)
  /\ length (filter isGetUsersObs (trace w))
     = 1 + length (filter (isToast toast_deleted) (trace w))
         + length (filter (isToast toast_created) (trace w))
  /\ forall n v,
       In (ObsRequest n (createUser v)) (trace w) ->
       hasErrors (formSchema isEmail v) = false.

(** The numbers of the pending requests are below the next number. *)
Definition Fresh (w : World) : Prop :=
  Forall (fun ne => fst ne < nextRequest w) (pending w).

(** [c] is the code unit [l] or, for a lower-case ASCII letter [l], its
    upper-case form. *)
Definition isLowerLetter (l : ascii) : bool :=
  ((97 <=? N_of_ascii l) && (N_of_ascii l <=? 122))%N.

Definition sameLetter (l c : ascii) : bool :=
  (c =? l)%char
  || (isLowerLetter l && (N_of_ascii c + 32 =? N_of_ascii l)%N).

(** [s] spells [pattern], upper or lower case letter by letter. *)
Fixpoint spells (pattern s : string) : bool :=
  match pattern, s with
  | EmptyString, EmptyString => true
  | String l pattern', String c s' => sameLetter l c && spells pattern' s'
  | _, _ => false
  end.

(** A code unit of a literal the roles are compared with: ASCII, and not
    an upper-case letter. *)
Definition plainUnit (l : ascii) : bool :=
  ((N_of_ascii l <? 128) && negb ((65 <=? N_of_ascii l) && (N_of_ascii l <=? 90)))%N.

Fixpoint plain (s : string) : bool :=
  match s with
  | EmptyString => true
  | String l rest => plainUnit l && plain rest
  end.

Definition allUnits : list ascii := map ascii_of_nat (List.seq 0 256).

(** [AddUserForm] is rendered inside the content of the creation dialog,
    and the dialog is part of the page that [Users] returns when it does
    not return the skeleton: an instance of the form, with its values, its
    errors and its [isSubmitting], is there while the page is shown and the
    dialog is open.  [form] follows the instance that is mounted; when the
    skeleton is shown or the dialog is closed that instance is dropped, and
    the next one starts from [defaultValues]. *)
Definition formMounted (s : UsersState) : bool :=
  negb (isLoading s) && isAddUserOpen s.

(** The user activates the submit button (or presses Enter in a field).
    There is a button only while the form is mounted, and it does nothing
    while it is [disabled].  The form has no [noValidate] and the e-mail
    field is an [<input type="email">]: the browser checks that field
    first, and when it does not accept the value it reports that itself and
    fires no submit event, so that [handleSubmit] does not run.  The
    browser's check is the parameter [browserAccepts]; the other fields
    carry no constraint of the browser.  [SubmitForm] is the submit event
    of the form element. *)
Definition pressSubmit (browserAccepts isEmail : string -> bool) (w : World)
  : World :=
  if negb (formMounted (page w)) then w
  else if isSubmitting (form w) then w
  else if browserAccepts (Values.email (values (form w)))
       then step isEmail SubmitForm w
       else w.

(** [sub] occurs somewhere in [s]. *)
Definition occursIn (sub s : string) : Prop :=
  exists before after, s = (before ++ sub ++ after)%string.

Definition isRequestObs (o : Obs) : bool :=
  match o with
  | ObsRequest _ _ => true
  | _ => false
  end.

Module Scenario.

(** The delete button of Ana's row (id 3) was clicked. *)
Definition askingAna : World :=
  step Sample.isEmail (ClickDelete 0) Sample.loaded.

(** The creation succeeded; the list is being fetched again. *)
Definition created : World :=
  step Sample.isEmail (Settle 1 fulfil_void) Sample.submitting.

(** The form was submitted and then dismissed with "Cancelar". *)
Definition dismissed : World :=
  step Sample.isEmail ClickFormCancel Sample.submitting.

(** A stand-in for the browser's check of the e-mail field, for the sample
    runs only: the empty value passes, any other value needs an "@". *)
Definition browserAccepts (s : string) : bool :=
  (s =? "")%string || Js.includes s "@".

(** The form holds the name "Jo" and the e-mail "abc". *)
Definition filledBadEmail : World :=
  step Sample.isEmail (Input f_email "abc") Sample.filledShort.

(** A caller of the form whose two callbacks do nothing. *)
Definition quietProps : AddUserFormProps :=
  {| onUserAdded := Done; setOpen := fun _ => Done |}.

End Scenario.

(* ===================================================================== *)
(** * Properties *)
(* ===================================================================== *)

Example toLowerCase_Admin : Js.toLowerCase "Admin" = "admin".
Proof. reflexivity. Qed.


(** ** Strings *)

Lemma prefix_spec (p s : string) :
  String.prefix p s = true <-> exists rest, s = p ++ rest.
Proof.
  revert s; induction p as [|c p IH]; intros s.
  - split; [intros _; exists s; reflexivity | intros _; now destruct s].
  - destruct s as [|d s]; simpl.
    + split; [discriminate | intros [rest H]; discriminate].
    + destruct (Ascii.ascii_dec c d) as [->|Hne].
      * rewrite IH. split; intros [rest H]; exists rest.
        -- now rewrite H.
        -- now injection H.
      * split; [discriminate | intros [rest H]; injection H; congruence].
Qed.

(** [includes] finds exactly the substrings. *)
Lemma includes_spec (s sub : string) :
  Js.includes s sub = true <-> exists before after, s = before ++ sub ++ after.
Proof.
  induction s as [|c s IH]; cbn [Js.includes].
  - rewrite orb_false_r, prefix_spec. split.
    + intros [rest H]. exists "", rest. exact H.
    + intros [before [after H]]. destruct before; simpl in H.
      * now exists after.
      * discriminate.
  - rewrite orb_true_iff, prefix_spec, IH. split.
    + intros [[rest H] | [before [after H]]].
      * exists "", rest. exact H.
      * exists (String c before), after. simpl. now rewrite H.
    + intros [before [after H]]. destruct before as [|d before]; simpl in H.
      * left. now exists after.
      * right. injection H as _ H. now exists before, after.
Qed.

Lemma toLowerCase_length (s : string) :
  String.length (Js.toLowerCase s) = String.length s.
Proof. induction s; simpl; congruence. Qed.

Lemma lowerUnit_idempotent (c : ascii) :
  Js.lowerUnit (Js.lowerUnit c) = Js.lowerUnit c.
Proof. destruct c as [[] [] [] [] [] [] [] []]; reflexivity. Qed.

Lemma toLowerCase_idempotent (s : string) :
  Js.toLowerCase (Js.toLowerCase s) = Js.toLowerCase s.
Proof.
  induction s as [|c s IH]; simpl; [reflexivity|].
  now rewrite lowerUnit_idempotent, IH.
Qed.

(** ** The pending requests *)

Open Scope list_scope.

Lemma lookup_In n l e : lookup n l = Some e -> In (n, e) l.
Proof.
  induction l as [|[m e'] l IH]; simpl; [discriminate|].
  destruct (Nat.eqb_spec n m) as [->|_].
  - intros [= ->]. now left.
  - intros H. right. auto.
Qed.

Lemma Forall_remove (P : nat * Parked -> Prop) n l :
  Forall P l -> Forall P (remove n l).
Proof.
  induction 1 as [|[m e] l Hx Hl IH]; simpl; [constructor|].
  destruct (Nat.eqb n m); [assumption | now constructor].
Qed.

Lemma count_remove n l e :
  lookup n l = Some e ->
  length (filter isCreate l)
  = length (filter isCreate (remove n l))
    + (if isCreate (n, e) then 1 else 0).
Proof.
  induction l as [|[m e'] l IH]; simpl; [discriminate|].
  destruct (Nat.eqb_spec n m) as [->|_].
  - intros [= ->]. destruct (isCreate (m, e)); simpl; lia.
  - intros H. simpl. specialize (IH H).
    destruct (isCreate (m, e')); simpl; lia.
Qed.

Lemma lookup_known n l e :
  Forall (fun ne => known (snd ne)) l -> lookup n l = Some e -> known e.
Proof.
  intros HF H. apply lookup_In in H.
  rewrite Forall_forall in HF. exact (HF _ H).
Qed.

(** ** The steps of the interface *)

Section Screen.

Variable isEmail : string -> bool.

Lemma step_ClickDelete i w :
  step isEmail (ClickDelete i) w =
  if isLoading (page w) then w
  else match nth_error (users (page w)) i with
       | None => w
       | Some user =>
           if isAdmin user then w
           else exec (onClick (button (renderRow user))) w
       end.
Proof.
  unfold step, render. destruct (isLoading (page w)); [reflexivity|].
  rewrite nth_error_map.
  destruct (nth_error (users (page w)) i); reflexivity.
Qed.

Lemma rendered_row i w user :
  isLoading (page w) = false ->
  nth_error (users (page w)) i = Some user ->
  nth_error (rowsOf (render (page w))) i = Some (renderRow user).
Proof.
  intros Hl Hu. unfold render. rewrite Hl. simpl.
  now rewrite nth_error_map, Hu.
Qed.

Lemma Inv_mounted : Inv mounted.
Proof.
  repeat split; cbn.
  - repeat constructor.
  - intros n [H|[]]. discriminate.
Qed.

Ltac inv_split :=
  match goal with
  | H : Inv _ |- Inv _ =>
      destruct H as (Hk & Hc & Hd); unfold Inv, createInFlight in *; cbn
  end.

(** The three parts of [Inv] after a step whose effect is computed. *)
Ltac inv_known :=
  repeat (apply Forall_app; split);
  try assumption; try (apply Forall_remove; assumption);
  repeat constructor; simpl; auto.

Ltac inv_count :=
  rewrite ?filter_app, ?length_app; simpl;
  try match goal with
      | H : isSubmitting _ = _ |- _ => rewrite H in *
      end;
  try lia;
  try match goal with
      | H : context [isSubmitting (form ?w)] |- _ =>
          destruct (isSubmitting (form w)); lia
      end.

Ltac inv_trace Hd :=
  let n := fresh "n" in
  let Hin := fresh "Hin" in
  intros n Hin;
  repeat (apply in_app_or in Hin; destruct Hin as [Hin|Hin]);
  try (eapply Hd; eassumption);
  simpl in Hin;
  repeat match goal with
         | H : _ \/ _ |- _ => destruct H
         | H : False |- _ => destruct H
         end;
  try discriminate; try congruence.

Ltac inv_finish Hd := split; [inv_known | split; [inv_count | inv_trace Hd]].

Lemma step_Inv e w : Inv w -> Inv (step isEmail e w).
Proof.
  intros HI. destruct e.
  - (* ClickDelete *)
    rewrite step_ClickDelete.
    destruct (isLoading (page w)); [assumption|].
    destruct (nth_error (users (page w)) i) as [user|]; [|assumption].
    destruct (isAdmin user); [assumption|].
    inv_split. inv_finish Hd.
  - (* ClickCancelDelete *)
    unfold step, render.
    destruct (isLoading (page w)); [assumption|].
    destruct (deleteId (page w)); [|assumption].
    inv_split. inv_finish Hd.
  - (* ClickConfirmDelete *)
    unfold step, render.
    destruct (isLoading (page w)); [assumption|].
    destruct (deleteId (page w)) as [id|]; [|assumption].
    unfold handleDelete; simpl.
    destruct (Z.eqb_spec id 0) as [->|Hne]; [assumption|].
    inv_split. inv_finish Hd.
  - (* AlertOpenChange *)
    unfold step, render.
    destruct (isLoading (page w)); [assumption|].
    destruct open; [assumption|].
    inv_split. inv_finish Hd.
  - (* AddDialogOpenChange *)
    unfold step, render.
    destruct (isLoading (page w)); [assumption|].
    inv_split. inv_finish Hd.
  - (* Input *)
    inv_split. inv_finish Hd.
  - (* ClickFormCancel *)
    inv_split. inv_finish Hd.
  - (* SubmitForm *)
    unfold step.
    destruct (isSubmitting (form w)) eqn:Hs; [assumption|].
    unfold handleSubmit.
    destruct (hasErrors (formSchema isEmail (values (form w)))).
    + inv_split. inv_finish Hd.
    + inv_split. inv_finish Hd.
  - (* Settle *)
    unfold step, settle.
    destruct (lookup n (pending w)) as [e|] eqn:Hl; [|assumption].
    pose proof (lookup_known _ _ _ (proj1 HI) Hl) as Hkn.
    pose proof (count_remove _ _ _ Hl) as Hrm.
    destruct e as [r k]. destruct r; simpl in Hkn, Hrm.
    + (* fetchUsers goes on *)
      subst k. destruct s; simpl; try assumption;
        inv_split; inv_finish Hd.
    + (* onSubmit goes on *)
      subst k. destruct s; simpl; try assumption;
        inv_split; inv_finish Hd.
    + (* handleDelete goes on *)
      destruct Hkn as [Hne ->]. destruct s; simpl; try assumption;
        inv_split; inv_finish Hd.
Qed.

Lemma reachable_Inv w : reachable isEmail w -> Inv w.
Proof.
  induction 1 as [|e w _ IH]; [exact Inv_mounted | now apply step_Inv].
Qed.

Lemma reachable_run es w :
  reachable isEmail w -> reachable isEmail (run isEmail es w).
Proof.
  revert w; induction es as [|e es IH]; intros w Hw; simpl; [assumption|].
  apply IH. now constructor.
Qed.

Lemma pending_getUsers w n k :
  reachable isEmail w ->
  lookup n (pending w) = Some (parked getUsers k) ->
  k = fetchUsers_resume.
Proof.
  intros Hr Hl.
  exact (lookup_known _ _ _ (proj1 (reachable_Inv _ Hr)) Hl).
Qed.

Lemma pending_createUser w n v k :
  reachable isEmail w ->
  lookup n (pending w) = Some (parked (createUser v) k) ->
  k = onSubmit_resume addUserFormProps.
Proof.
  intros Hr Hl.
  exact (lookup_known _ _ _ (proj1 (reachable_Inv _ Hr)) Hl).
Qed.

Lemma pending_deleteUser w n id k :
  reachable isEmail w ->
  lookup n (pending w) = Some (parked (deleteUser id) k) ->
  id <> 0%Z /\ k = handleDelete_resume.
Proof.
  intros Hr Hl.
  exact (lookup_known _ _ _ (proj1 (reachable_Inv _ Hr)) Hl).
Qed.

(** ** The delete flow on an id other than 0 *)

(** Confirming sends [deleteUser] for the recorded id, when that id is not
    0, and nothing else happens until the request settles. *)
Lemma confirm_sends_delete w id :
  isLoading (page w) = false ->
  deleteId (page w) = Some id ->
  id <> 0%Z ->
  let w' := step isEmail ClickConfirmDelete w in
  trace w' = trace w ++ [ObsRequest (nextRequest w) (deleteUser id)]
  /\ pending w'
     = pending w ++ [(nextRequest w, parked (deleteUser id) handleDelete_resume)]
  /\ page w' = page w
  /\ form w' = form w.
Proof.
  intros Hl Hd Hne. unfold step, render. rewrite Hl, Hd.
  unfold handleDelete; simpl.
  destruct (Z.eqb_spec id 0) as [->|_]; [contradiction|].
  repeat split.
Qed.

(** When the delete request succeeds: the success notification, one
    fetch-all, and the pending id cleared. *)
Lemma delete_success w n id k :
  reachable isEmail w ->
  lookup n (pending w) = Some (parked (deleteUser id) k) ->
  let w' := step isEmail (Settle n fulfil_void) w in
  trace w'
  = trace w ++ [ObsToast toast_deleted; ObsRequest (nextRequest w) getUsers]
  /\ pending w'
     = remove n (pending w)
       ++ [(nextRequest w, parked getUsers fetchUsers_resume)]
  /\ deleteId (page w') = None
  /\ isLoading (page w') = true
  /\ users (page w') = users (page w).
Proof.
  intros Hr Hl. destruct (pending_deleteUser _ _ _ _ Hr Hl) as [_ ->].
  unfold step, settle. rewrite Hl. cbn.
  rewrite <- app_assoc. repeat split.
Qed.

(* --------------------------------------------------------------------- *)
(** ** The claims *)
(* --------------------------------------------------------------------- *)

(** C1: for every user of the rendered list whose role is the
    administrator value, the row is rendered with its delete button, the
    button is disabled, and activating it changes nothing: no pending-delete
    id is recorded through an administrator's row. *)
Theorem admin_delete_affordance_disabled i w user :
  isLoading (page w) = false ->
  nth_error (users (page w)) i = Some user ->
  Api.rol user = "admin" ->
  nth_error (rowsOf (render (page w))) i = Some (renderRow user)
  /\ disabled (button (renderRow user)) = true
  /\ step isEmail (ClickDelete i) w = w.
Proof.
  intros Hl Hu Hrol. split; [now apply rendered_row|].
  assert (Ha : isAdmin user = true) by (unfold isAdmin; now rewrite Hrol).
  split; [exact Ha|].
  now rewrite step_ClickDelete, Hl, Hu, Ha.
Qed.

(** The submit event on values that fail the schema: [handleSubmit] does
    not call the function it guards, whatever that function is; nothing is
    sent and nothing changes but the form's errors, which then hold the
    issue of every field in violation. *)
Lemma submit_event_with_invalid_values w :
  (String.length (Values.nombre (values (form w))) < 3
   \/ isEmail (Values.email (values (form w))) = false
   \/ String.length (Values.password (values (form w))) < 6
   \/ ~ In (Values.rol (values (form w))) roles) ->
  let v := values (form w) in
  let w' := step isEmail SubmitForm w in
  (forall onValid,
      trace (handleSubmit isEmail onValid w) = trace w
      /\ pending (handleSubmit isEmail onValid w) = pending w
      /\ page (handleSubmit isEmail onValid w) = page w)
  /\ trace w' = trace w
  /\ pending w' = pending w
  /\ page w' = page w
  /\ values (form w') = v
  /\ isSubmitting (form w') = isSubmitting (form w)
  /\ (isSubmitting (form w) = false ->
      hasErrors (errors (form w')) = true
      /\ (String.length (Values.nombre v) < 3 ->
          nombre_error (errors (form w')) = Some (too_small msg_nombre))
      /\ (isEmail (Values.email v) = false ->
          email_error (errors (form w')) = Some (invalid_string msg_email))
      /\ (String.length (Values.password v) < 6 ->
          password_error (errors (form w'))
          = Some (too_small msg_password))
      /\ (~ In (Values.rol v) roles ->
          rol_error (errors (form w'))
          = Some (invalid_enum_value (Values.rol v)))).
Proof.
  intros Hbad v w'. subst v w'.
  assert (Hrole : ~ In (Values.rol (values (form w))) roles ->
                  isRole (Values.rol (values (form w))) = false).
  { intros Hn. unfold isRole. destruct (existsb _ roles) eqn:He; [|reflexivity].
    apply existsb_exists in He. destruct He as [r [Hin Heq]].
    apply String.eqb_eq in Heq. subst r. contradiction. }
  assert (He : hasErrors (formSchema isEmail (values (form w))) = true).
  { unfold hasErrors, formSchema; simpl.
    destruct Hbad as [H|[H|[H|H]]].
    - apply Nat.ltb_lt in H. now rewrite H.
    - rewrite H. simpl. now rewrite orb_true_r.
    - apply Nat.ltb_lt in H. rewrite H. simpl. now rewrite !orb_true_r.
    - rewrite (Hrole H). simpl. now rewrite !orb_true_r. }
  split; [intros onValid; unfold handleSubmit; rewrite He; repeat split|].
  unfold step.
  destruct (isSubmitting (form w)) eqn:Hs.
  { repeat (split; [reflexivity|]).
    split; [exact Hs | intros H; discriminate H]. }
  unfold handleSubmit. rewrite He.
  cbn [with_form trace pending page form values isSubmitting errors].
  repeat (split; [reflexivity|]). split; [exact Hs|]. intros _.
  split; [exact He|].
  unfold formSchema; cbn [nombre_error email_error password_error rol_error].
  split; [|split; [|split]]; intros H.
  - apply Nat.ltb_lt in H. now rewrite H.
  - now rewrite H.
  - apply Nat.ltb_lt in H. now rewrite H.
  - now rewrite (Hrole H).
Qed.

(** C2, as the code has it: when the name is shorter than 3, or the e-mail
    does not match, or the password is shorter than 6, or the role is none
    of the three values, activating the submit button sends no request and
    changes neither the page nor the values.  When the click becomes a
    submit event (the form is mounted, the button is enabled and the
    browser accepts the e-mail field), the form's errors hold the issue of
    every field in violation, with the message of the schema; when the
    browser does not accept the e-mail field, no issue of the schema is
    stored for any field. *)
Theorem invalid_input_blocks_submission browserAccepts w :
  (String.length (Values.nombre (values (form w))) < 3
   \/ isEmail (Values.email (values (form w))) = false
   \/ String.length (Values.password (values (form w))) < 6
   \/ ~ In (Values.rol (values (form w))) roles) ->
  let v := values (form w) in
  let w' := pressSubmit browserAccepts isEmail w in
  (forall onValid,
      trace (handleSubmit isEmail onValid w) = trace w
      /\ pending (handleSubmit isEmail onValid w) = pending w
      /\ page (handleSubmit isEmail onValid w) = page w)
  /\ trace w' = trace w
  /\ pending w' = pending w
  /\ page w' = page w
  /\ values (form w') = v
  /\ isSubmitting (form w') = isSubmitting (form w)
  /\ (formMounted (page w) = true ->
      isSubmitting (form w) = false ->
      browserAccepts (Values.email v) = true ->
      hasErrors (errors (form w')) = true
      /\ (String.length (Values.nombre v) < 3 ->
          nombre_error (errors (form w'))
          = Some (too_small "El nombre debe tener al menos 3 caracteres"))
      /\ (isEmail (Values.email v) = false ->
          email_error (errors (form w'))
          = Some (invalid_string
                    ("Email inv" ++ String "225"%char "lido")%string))
      /\ (String.length (Values.password v) < 6 ->
          password_error (errors (form w'))
          = Some (too_small
                    ("La contrase"
                     ++ String "241"%char
                          "a debe tener al menos 6 caracteres")%string))
      /\ (~ In (Values.rol v) roles ->
          rol_error (errors (form w'))
          = Some (invalid_enum_value (Values.rol v))))
  /\ (browserAccepts (Values.email v) = false ->
      errors (form w') = errors (form w)).
Proof.
  intros Hbad v w'.
  destruct (submit_event_with_invalid_values w Hbad)
    as (Hh & Ht & Hp & Hpg & Hv & Hs & Herr).
  subst v w'. unfold pressSubmit.
  split; [exact Hh|].
  destruct (formMounted (page w)).
  2: { repeat (split; [first [reflexivity | assumption]|]).
       split; [intros H; discriminate H | reflexivity]. }
  destruct (isSubmitting (form w)) eqn:Esub.
  { repeat (split; [first [reflexivity | assumption]|]).
    split; [intros _ H; discriminate H | reflexivity]. }
  destruct (browserAccepts (Values.email (values (form w)))).
  - split; [exact Ht|]. split; [exact Hp|]. split; [exact Hpg|].
    split; [exact Hv|]. split; [exact Hs|].
    split; [intros _ _ _; exact (Herr eq_refl) | intros H; discriminate H].
  - repeat (split; [first [reflexivity | assumption]|]).
    split; [intros _ _ H; discriminate H | reflexivity].
Qed.

Lemma includes_occursIn (sub s : string) :
  Js.includes s sub = true <-> occursIn sub s.
Proof. apply includes_spec. Qed.

Lemma not_includes_occursIn (sub s : string) :
  ~ occursIn sub s -> Js.includes s sub = false.
Proof.
  intros Hn. destruct (Js.includes s sub) eqn:E; [|reflexivity].
  exfalso. apply Hn. now apply includes_occursIn.
Qed.

(** C4, as the code has it: when a [deleteUser] request fails, exactly one
    notification is shown, titled "Error" and destructive, and its text is
    picked by what occurs in the message of the thrown [Error], in this
    order: the server-refused text when "500" occurs, else the permission
    text when "403" occurs, else the not-found text when "404" occurs, else
    the generic text, which is also the text for a thrown value that is not
    an [Error]; the pending id is cleared, the list is kept and no request
    is sent. *)
Theorem delete_failure_message_by_substring w n id k error :
  reachable isEmail w ->
  lookup n (pending w) = Some (parked (deleteUser id) k) ->
  let w' := step isEmail (Settle n (reject error)) w in
  exists text,
    filter isToastObs (trace w')
    = filter isToastObs (trace w)
      ++ [ObsToast {| title := "Error"; description := text;
                      variant := variant_destructive |}]
    /\ (forall m, error = Js.ErrorObj m ->
          occursIn "500" m ->
          text = "Error del servidor: El usuario no puede ser eliminado (posiblemente tiene datos relacionados o es un administrador)")
    /\ (forall m, error = Js.ErrorObj m ->
          ~ occursIn "500" m -> occursIn "403" m ->
          text = "No tienes permisos para eliminar este usuario")
    /\ (forall m, error = Js.ErrorObj m ->
          ~ occursIn "500" m -> ~ occursIn "403" m -> occursIn "404" m ->
          text = "El usuario no fue encontrado")
    /\ (forall m, error = Js.ErrorObj m ->
          ~ occursIn "500" m -> ~ occursIn "403" m -> ~ occursIn "404" m ->
          text = "No se pudo eliminar el usuario")
    /\ (error = Js.NotAnError -> text = "No se pudo eliminar el usuario")
    /\ filter isRequestObs (trace w') = filter isRequestObs (trace w)
    /\ deleteId (page w') = None
    /\ users (page w') = users (page w)
    /\ isLoading (page w') = isLoading (page w)
    /\ pending w' = remove n (pending w).
Proof.
  intros Hr Hl. destruct (pending_deleteUser _ _ _ _ Hr Hl) as [_ ->].
  exists (deleteErrorMessage error).
  unfold step, settle. rewrite Hl. cbn.
  rewrite !filter_app. cbn. rewrite !app_nil_r.
  split; [reflexivity|].
  split.
  { intros m -> H5. unfold deleteErrorMessage.
    apply includes_occursIn in H5. now rewrite H5. }
  split.
  { intros m -> H5 H3. unfold deleteErrorMessage.
    apply not_includes_occursIn in H5. apply includes_occursIn in H3.
    now rewrite H5, H3. }
  split.
  { intros m -> H5 H3 H4. unfold deleteErrorMessage.
    apply not_includes_occursIn in H5. apply not_includes_occursIn in H3.
    apply includes_occursIn in H4. now rewrite H5, H3, H4. }
  split.
  { intros m -> H5 H3 H4. unfold deleteErrorMessage.
    apply not_includes_occursIn in H5. apply not_includes_occursIn in H3.
    apply not_includes_occursIn in H4. now rewrite H5, H3, H4. }
  split; [intros ->; reflexivity|].
  repeat split.
Qed.

(** C5, as the code has it: when [createUser] resolves, four things happen
    in this order, whatever the two callbacks are: the notification
    "Usuario creado" is shown, the callback given by the caller is called
    once, [setOpen(false)] is called once, and [setIsSubmitting(false)]
    runs.  With the callbacks that [Users] passes, the second starts
    exactly one fetch-all and the third closes the creation dialog, so
    that the skeleton is shown and the form is no longer mounted; the list
    and the pending delete id are what they were. *)
Theorem create_success_effects w n v k :
  reachable isEmail w ->
  lookup n (pending w) = Some (parked (createUser v) k) ->
  let w' := step isEmail (Settle n fulfil_void) w in
  let created :=
    {| title := "Usuario creado";
       description := "El nuevo usuario ha sido agregado exitosamente.";
       variant := variant_unset |} in
  (forall props w0,
      exec (onSubmit_resume props (Resolved tt)) w0
      = perform (setIsSubmitting false)
          (exec (setOpen props false)
             (exec (onUserAdded props)
                (perform (toast created) w0))))
  /\ trace w'
     = trace w ++ [ObsToast created; ObsRequest (nextRequest w) getUsers]
  /\ pending w'
     = remove n (pending w)
       ++ [(nextRequest w, parked getUsers fetchUsers_resume)]
  /\ isAddUserOpen (page w') = false
  /\ isLoading (page w') = true
  /\ formMounted (page w') = false
  /\ users (page w') = users (page w)
  /\ deleteId (page w') = deleteId (page w).
Proof.
  intros Hr Hl. rewrite (pending_createUser _ _ _ _ Hr Hl) in Hl.
  unfold step, settle. rewrite Hl. cbn.
  rewrite <- app_assoc.
  split.
  - intros props w0. unfold onSubmit_resume. cbn.
    generalize (perform (toast toast_created) w0). intros w1.
    generalize (exec (onUserAdded props) w1). intros w2.
    generalize (exec (setOpen props false) w2). intros w3.
    reflexivity.
  - repeat split.
Qed.

(** C6, as the code has it: when [createUser] fails, exactly one
    notification is shown, titled "Error" and destructive; its text is the
    message of the thrown value whenever that value is an [Error], whatever
    the message, and the fallback text when the thrown value is not an
    [Error].  The state of [Users] (hence the dialog's open flag) and the
    form's values and errors are what they were, and [isSubmitting] is
    cleared, as it is on success. *)
Theorem create_failure_effects w n v k error :
  reachable isEmail w ->
  lookup n (pending w) = Some (parked (createUser v) k) ->
  let w' := step isEmail (Settle n (reject error)) w in
  exists text,
    trace w'
    = trace w ++ [ObsToast {| title := "Error"; description := text;
                              variant := variant_destructive |}]
    /\ (forall m, error = Js.ErrorObj m -> text = m)
    /\ (error = Js.NotAnError ->
        text = ("No se pudo crear el usuario. Int"
                ++ String "233"%char "ntalo de nuevo.")%string)
    /\ page w' = page w
    /\ formMounted (page w') = formMounted (page w)
    /\ values (form w') = values (form w)
    /\ errors (form w') = errors (form w)
    /\ pending w' = remove n (pending w)
    /\ isSubmitting (form w') = false
    /\ isSubmitting (form (step isEmail (Settle n fulfil_void) w)) = false.
Proof.
  intros Hr Hl. rewrite (pending_createUser _ _ _ _ Hr Hl) in Hl.
  exists (createErrorMessage error).
  unfold step, settle. rewrite Hl. cbn.
  split; [reflexivity|].
  split; [intros m ->; reflexivity|].
  split; [intros ->; reflexivity|].
  repeat split.
Qed.

(** C7: when [getUsers] fails, the collection is what it was, exactly one
    notification is shown, titled "Error", destructive and saying that the
    users could not be loaded, and the loading flag is cleared, so the page
    is rendered and not the skeleton; nothing else changes and nothing is
    left waiting. *)
Theorem fetch_failure_effects w n k error :
  reachable isEmail w ->
  lookup n (pending w) = Some (parked getUsers k) ->
  let w' := step isEmail (Settle n (reject error)) w in
  users (page w') = users (page w)
  /\ trace w'
     = trace w
       ++ [ObsToast {| title := "Error";
                       description := "No se pudieron cargar los usuarios";
                       variant := variant_destructive |}]
  /\ isLoading (page w') = false
  /\ render (page w') <> Skeleton
  /\ length (rowsOf (render (page w'))) = length (users (page w))
  /\ deleteId (page w') = deleteId (page w)
  /\ isAddUserOpen (page w') = isAddUserOpen (page w)
  /\ form w' = form w
  /\ pending w' = remove n (pending w).
Proof.
  intros Hr Hl. rewrite (pending_getUsers _ _ _ Hr Hl) in Hl.
  unfold step, settle. rewrite Hl. cbn.
  repeat split; try discriminate. apply length_map.
Qed.

(** C8: in every state of the screen at most one [createUser] request is in
    flight, and one is in flight exactly while [isSubmitting] is set.
    [onSubmit] sets the flag before it sends the request; while the flag is
    set the submit button is disabled and submitting does nothing; when the
    request settles, either way, the flag is cleared and no [createUser]
    request is in flight. *)
Theorem single_create_in_flight w :
  reachable isEmail w ->
  createInFlight w <= 1
  /\ (isSubmitting (form w) = true <-> createInFlight w = 1)
  /\ (isSubmitting (form w) = true -> step isEmail SubmitForm w = w)
  /\ (forall props values w0,
        exec (onSubmit props values) w0
        = park (createUser values) (onSubmit_resume props)
            (perform (setIsSubmitting true) w0))
  /\ (isSubmitting (form w) = false ->
      hasErrors (formSchema isEmail (values (form w))) = false ->
      let w1 := step isEmail SubmitForm w in
      trace w1
      = trace w ++ [ObsRequest (nextRequest w) (createUser (values (form w)))]
      /\ isSubmitting (form w1) = true
      /\ createInFlight w1 = 1)
  /\ (forall n v k s,
        lookup n (pending w) = Some (parked (createUser v) k) ->
        s = fulfil_void \/ (exists error, s = reject error) ->
        let w1 := step isEmail (Settle n s) w in
        isSubmitting (form w1) = false /\ createInFlight w1 = 0).
Proof.
  intros Hr. pose proof (reachable_Inv _ Hr) as (Hk & Hc & _).
  split; [rewrite Hc; destruct (isSubmitting (form w)); lia|].
  split; [rewrite Hc; destruct (isSubmitting (form w)); split;
          congruence|].
  split; [intros Hs; unfold step; now rewrite Hs|].
  split; [reflexivity|].
  split.
  - intros Hs Hv w1. subst w1. unfold step, handleSubmit.
    rewrite Hs, Hv. unfold createInFlight in *. cbn.
    rewrite filter_app, length_app, Hc, Hs. repeat split.
  - intros n v k s Hl Hsettle w1.
    assert (Hi : Inv w1) by (apply step_Inv, reachable_Inv, Hr).
    destruct Hi as (_ & Hc1 & _).
    assert (Hs1 : isSubmitting (form w1) = false).
    { subst w1. rewrite (pending_createUser _ _ _ _ Hr Hl) in Hl.
      unfold step, settle. rewrite Hl.
      destruct Hsettle as [->|[error ->]]; reflexivity. }
    split; [exact Hs1|]. now rewrite Hc1, Hs1.
Qed.

(** C9: with the recorded id 0, or with none, [handleDelete] ends at once:
    the state, the notifications and the requests are what they were.  So
    for a user with id 0 who is no administrator the delete button is
    enabled and records the id 0, confirming changes nothing, and whatever
    happens afterwards no [deleteUser(0)] request is ever sent. *)
Theorem confirm_with_falsy_id_does_nothing w i user :
  reachable isEmail w ->
  isLoading (page w) = false ->
  nth_error (users (page w)) i = Some user ->
  Api.id user = 0%Z ->
  isAdmin user = false ->
  (forall w0, exec (handleDelete (Some 0%Z)) w0 = w0)
  /\ (forall w0, exec (handleDelete None) w0 = w0)
  /\ (forall w0, Js.not (deleteId (page w0)) = true ->
        step isEmail ClickConfirmDelete w0 = w0)
  /\ disabled (button (renderRow user)) = false
  /\ deleteId (page (step isEmail (ClickDelete i) w)) = Some 0%Z
  /\ step isEmail ClickConfirmDelete (step isEmail (ClickDelete i) w)
     = step isEmail (ClickDelete i) w
  /\ (forall es m,
        ~ In (ObsRequest m (deleteUser 0)) (trace (run isEmail es w))).
Proof.
  intros Hr Hl Hu Hid Ha.
  assert (Hnoop : forall w0, Js.not (deleteId (page w0)) = true ->
                             step isEmail ClickConfirmDelete w0 = w0).
  { intros w0 Hn. unfold step.
    destruct (render (page w0)) as [|t rows [] ao]; try reflexivity.
    unfold handleDelete. now rewrite Hn. }
  assert (Hrec : deleteId (page (step isEmail (ClickDelete i) w)) = Some 0%Z).
  { rewrite step_ClickDelete, Hl, Hu, Ha. cbn. now rewrite Hid. }
  split; [reflexivity|]. split; [reflexivity|]. split; [exact Hnoop|].
  split; [exact Ha|]. split; [exact Hrec|].
  split; [apply Hnoop; now rewrite Hrec|].
  intros es m.
  exact (proj2 (proj2 (reachable_Inv _ (reachable_run es _ Hr))) m).
Qed.


End Screen.

(* --------------------------------------------------------------------- *)
(** ** The claims on the sample states *)
(* --------------------------------------------------------------------- *)

Lemma reachable_loaded : reachable Sample.isEmail Sample.loaded.
Proof. unfold Sample.loaded. apply reach_step, reach_mounted. Qed.

Lemma reachable_deleting : reachable Sample.isEmail Sample.deleting.
Proof. unfold Sample.deleting. do 2 apply reach_step. exact reachable_loaded. Qed.

Lemma reachable_submitting : reachable Sample.isEmail Sample.submitting.
Proof.
  unfold Sample.submitting, Sample.filled.
  do 5 apply reach_step. exact reachable_loaded.
Qed.

(** Root, the administrator of the sample list (id 7), cannot be picked
    for deletion: the confirmation dialog stays closed. *)
Lemma admin_delete_affordance_disabled_witness :
  disabled (button (renderRow Sample.root)) = true
  /\ step Sample.isEmail (ClickDelete 2) Sample.loaded = Sample.loaded
  /\ alertOpenOf (render (page (step Sample.isEmail (ClickDelete 2)
                                  Sample.loaded))) = false.
Proof.
  destruct (admin_delete_affordance_disabled Sample.isEmail 2 Sample.loaded
              Sample.root) as (_ & Hd & Hs);
    [reflexivity | reflexivity | reflexivity |].
  split; [exact Hd|]. split; [exact Hs|]. rewrite Hs. reflexivity.
Defined.

(** The name "Jo" is too short and the browser accepts "a@b.com": nothing
    is sent and the name's issue is reported.  With the e-mail "abc", which
    the browser does not accept, the errors stay as they were. *)
Lemma invalid_input_blocks_submission_witness :
  String.length (Values.nombre (values (form Sample.filledShort))) < 3
  /\ trace (pressSubmit Scenario.browserAccepts Sample.isEmail
              Sample.filledShort)
     = trace Sample.filledShort
  /\ pending (pressSubmit Scenario.browserAccepts Sample.isEmail
                Sample.filledShort)
     = pending Sample.filledShort
  /\ nombre_error (errors (form (pressSubmit Scenario.browserAccepts
                                   Sample.isEmail Sample.filledShort)))
     = Some (too_small "El nombre debe tener al menos 3 caracteres")
  /\ errors (form (pressSubmit Scenario.browserAccepts Sample.isEmail
                     Scenario.filledBadEmail))
     = errors (form Scenario.filledBadEmail).
Proof.
  assert (Hshort :
    String.length (Values.nombre (values (form Sample.filledShort))) < 3)
    by (vm_compute; lia).
  assert (Hshort' :
    String.length (Values.nombre (values (form Scenario.filledBadEmail))) < 3)
    by (vm_compute; lia).
  destruct (invalid_input_blocks_submission Sample.isEmail
              Scenario.browserAccepts Sample.filledShort (or_introl Hshort))
    as (_ & Ht & Hp & _ & _ & _ & Herr & _).
  destruct (Herr eq_refl eq_refl eq_refl) as (_ & Hn & _).
  destruct (invalid_input_blocks_submission Sample.isEmail
              Scenario.browserAccepts Scenario.filledBadEmail
              (or_introl Hshort'))
    as (_ & _ & _ & _ & _ & _ & _ & Hblocked).
  split; [exact Hshort|]. split; [exact Ht|]. split; [exact Hp|].
  split; [exact (Hn Hshort) | exact (Hblocked eq_refl)].
Defined.

(** With the name "Jo" and the e-mail "abc" the browser stops the
    submission at the e-mail field: neither the name's violation nor the
    e-mail's is reported in the form's errors. *)
Lemma invalid_input_unreported_when_browser_blocks :
  let w := Scenario.filledBadEmail in
  let w' := pressSubmit Scenario.browserAccepts Sample.isEmail w in
  String.length (Values.nombre (values (form w))) < 3
  /\ Sample.isEmail (Values.email (values (form w))) = false
  /\ formMounted (page w) = true
  /\ isSubmitting (form w) = false
  /\ nombre_error (errors (form w')) = None
  /\ email_error (errors (form w')) = None
  /\ hasErrors (errors (form w')) = false
  /\ trace w' = trace w.
Proof.
  cbv zeta. split; [vm_compute; lia|]. repeat split.
Qed.

(** C3 on the recorded id 0: Zed has id 0 and is no administrator, so the
    delete button records the id 0 and the confirmation dialog opens; on
    confirm no [deleteUser] request is sent, the id stays recorded and no
    notification is shown. *)
Theorem confirm_for_id_zero_sends_nothing :
  deleteId (page Sample.askingZed) = Some 0%Z
  /\ alertOpenOf (render (page Sample.askingZed)) = true
  /\ step Sample.isEmail ClickConfirmDelete Sample.askingZed
     = Sample.askingZed
  /\ filter (isDeleteObs 0)
       (trace (step Sample.isEmail ClickConfirmDelete Sample.askingZed))
     = []
  /\ pending (step Sample.isEmail ClickConfirmDelete Sample.askingZed) = [].
Proof. repeat split. Qed.

(** On the sample, confirming with the recorded id 3 sends [deleteUser(3)]. *)
Example confirm_for_id_three_sends_delete :
  deleteId (page (step Sample.isEmail (ClickDelete 0) Sample.loaded))
  = Some 3%Z
  /\ trace Sample.deleting
     = trace (step Sample.isEmail (ClickDelete 0) Sample.loaded)
       ++ [ObsRequest 1 (deleteUser 3)].
Proof. split; reflexivity. Qed.

(** The message of a failure with status 403 that also names "500" does
    not get the permission text: the check for "500" comes first. *)
Lemma delete_403_shadowed_by_500 :
  let m := "HTTP 403: user 500 is protected" in
  occursIn "403" m
  /\ filter isToastObs
       (trace (step Sample.isEmail (Settle 1 (reject (Js.ErrorObj m)))
                 Sample.deleting))
     = filter isToastObs (trace Sample.deleting)
       ++ [ObsToast
             {| title := "Error";
                description := "Error del servidor: El usuario no puede ser eliminado (posiblemente tiene datos relacionados o es un administrador)";
                variant := variant_destructive |}]
  /\ "Error del servidor: El usuario no puede ser eliminado (posiblemente tiene datos relacionados o es un administrador)"
     <> "No tienes permisos para eliminar este usuario".
Proof.
  cbv zeta. split; [|split; [reflexivity | discriminate]].
  exists "HTTP ", ": user 500 is protected". reflexivity.
Qed.

Lemma delete_failure_message_by_substring_witness :
  let error := Js.ErrorObj "HTTP 404" in
  let w' := step Sample.isEmail (Settle 1 (reject error)) Sample.deleting in
  lookup 1 (pending Sample.deleting)
  = Some (parked (deleteUser 3) handleDelete_resume)
  /\ filter isToastObs (trace w')
     = filter isToastObs (trace Sample.deleting)
       ++ [ObsToast {| title := "Error";
                       description := "El usuario no fue encontrado";
                       variant := variant_destructive |}]
  /\ filter isRequestObs (trace w')
     = filter isRequestObs (trace Sample.deleting)
  /\ deleteId (page w') = None
  /\ pending w' = [].
Proof.
  cbv zeta.
  destruct (delete_failure_message_by_substring Sample.isEmail
              Sample.deleting 1 3 handleDelete_resume
              (Js.ErrorObj "HTTP 404") reachable_deleting eq_refl)
    as (text & Ht & _ & _ & H404 & _ & _ & Hq & Hd & _ & _ & Hp).
  assert (Hno : forall code, Js.includes "HTTP 404" code = false ->
                             ~ occursIn code "HTTP 404").
  { intros code Hc Ho. apply includes_occursIn in Ho. congruence. }
  assert (Htext : text = "El usuario no fue encontrado").
  { apply (H404 "HTTP 404" eq_refl);
      [apply Hno; reflexivity | apply Hno; reflexivity |].
    exists "HTTP ", "". reflexivity. }
  split; [reflexivity|]. split; [rewrite Ht, Htext; reflexivity|].
  split; [exact Hq|]. split; [exact Hd | exact Hp].
Defined.

Lemma create_success_effects_witness :
  let w' := step Sample.isEmail (Settle 1 fulfil_void) Sample.submitting in
  lookup 1 (pending Sample.submitting)
  = Some (parked (createUser (values (form Sample.filled)))
            (onSubmit_resume addUserFormProps))
  /\ trace w'
     = trace Sample.submitting
       ++ [ObsToast
             {| title := "Usuario creado";
                description :=
                  "El nuevo usuario ha sido agregado exitosamente.";
                variant := variant_unset |};
           ObsRequest 2 getUsers]
  /\ length (filter isGetUsersObs (trace w'))
     = S (length (filter isGetUsersObs (trace Sample.submitting)))
  /\ isAddUserOpen (page w') = false
  /\ formMounted (page w') = false.
Proof.
  cbv zeta.
  destruct (create_success_effects Sample.isEmail Sample.submitting 1
              (values (form Sample.filled))
              (onSubmit_resume addUserFormProps)
              reachable_submitting eq_refl)
    as (_ & Ht & _ & Ho & _ & Hm & _).
  split; [reflexivity|]. split; [exact Ht|].
  split; [rewrite Ht; reflexivity|]. split; [exact Ho | exact Hm].
Defined.

(** With callbacks that do nothing, the notification and the two calls
    leave [isSubmitting] set; what runs when [createUser] resolves clears
    it: this is a fourth effect. *)
Lemma create_success_has_fourth_effect :
  let w0 := Sample.submitting in
  let three :=
    exec (setOpen Scenario.quietProps false)
      (exec (onUserAdded Scenario.quietProps)
         (perform (toast toast_created) w0)) in
  isSubmitting (form w0) = true
  /\ isSubmitting (form three) = true
  /\ isSubmitting
       (form (exec (onSubmit_resume Scenario.quietProps (Resolved tt)) w0))
     = false
  /\ exec (onSubmit_resume Scenario.quietProps (Resolved tt)) w0
     = perform (setIsSubmitting false) three.
Proof. cbv zeta. repeat split. Qed.

Lemma create_failure_effects_witness :
  let error := Js.ErrorObj "El email ya existe" in
  let w' := step Sample.isEmail (Settle 1 (reject error)) Sample.submitting in
  trace w'
  = trace Sample.submitting
    ++ [ObsToast {| title := "Error"; description := "El email ya existe";
                    variant := variant_destructive |}]
  /\ isAddUserOpen (page w') = true
  /\ formMounted (page w') = true
  /\ values (form w') = values (form Sample.filled)
  /\ isSubmitting (form w') = false.
Proof.
  cbv zeta.
  destruct (create_failure_effects Sample.isEmail Sample.submitting 1
              (values (form Sample.filled))
              (onSubmit_resume addUserFormProps)
              (Js.ErrorObj "El email ya existe")
              reachable_submitting eq_refl)
    as (text & Ht & Hm & _ & Hp & Hf & Hv & _ & _ & Hs & _).
  rewrite (Hm _ eq_refl) in Ht.
  split; [exact Ht|]. split; [rewrite Hp; reflexivity|].
  split; [rewrite Hf; reflexivity|].
  split; [exact Hv | exact Hs].
Defined.

(** An [Error] without a message: the notification has an empty text, not
    the fallback text. *)
Lemma create_failure_empty_message_shown :
  let w' :=
    step Sample.isEmail (Settle 1 (reject (Js.ErrorObj ""))) Sample.submitting
  in
  trace w'
  = trace Sample.submitting
    ++ [ObsToast {| title := "Error"; description := "";
                    variant := variant_destructive |}]
  /\ "" <> ("No se pudo crear el usuario. Int"
            ++ String "233"%char "ntalo de nuevo.")%string.
Proof. cbv zeta. split; [reflexivity | discriminate]. Qed.

(** The fetch after John Doe's creation fails: the four users stay. *)
Lemma fetch_failure_effects_witness :
  let w' :=
    step Sample.isEmail (Settle 2 (reject Js.NotAnError)) Scenario.created in
  users (page Scenario.created)
  = [Sample.ana; Sample.zed; Sample.root; Sample.eva]
  /\ users (page w') = [Sample.ana; Sample.zed; Sample.root; Sample.eva]
  /\ trace w'
     = trace Scenario.created
       ++ [ObsToast {| title := "Error";
                       description := "No se pudieron cargar los usuarios";
                       variant := variant_destructive |}]
  /\ isLoading (page Scenario.created) = true
  /\ isLoading (page w') = false
  /\ length (rowsOf (render (page w'))) = 4.
Proof.
  cbv zeta.
  destruct (fetch_failure_effects Sample.isEmail Scenario.created 2
              fetchUsers_resume Js.NotAnError
              (reach_step Sample.isEmail (Settle 1 fulfil_void)
                 Sample.submitting reachable_submitting) eq_refl)
    as (Hu & Ht & Hl & _ & Hn & _).
  split; [reflexivity|]. split; [rewrite Hu; reflexivity|].
  split; [exact Ht|]. split; [reflexivity|]. split; [exact Hl|].
  rewrite Hn. reflexivity.
Defined.

Lemma single_create_in_flight_witness :
  createInFlight Sample.submitting <= 1
  /\ isSubmitting (form Sample.submitting) = true
  /\ step Sample.isEmail SubmitForm Sample.submitting = Sample.submitting.
Proof.
  destruct (single_create_in_flight Sample.isEmail Sample.submitting
              reachable_submitting) as (Hle & _ & Hdis & _).
  split; [exact Hle|]. split; [reflexivity|]. exact (Hdis eq_refl).
Defined.

Lemma confirm_with_falsy_id_does_nothing_witness :
  Api.id Sample.zed = 0%Z
  /\ disabled (button (renderRow Sample.zed)) = false
  /\ step Sample.isEmail ClickConfirmDelete Sample.askingZed
     = Sample.askingZed
  /\ forall es m,
       ~ In (ObsRequest m (deleteUser 0))
            (trace (run Sample.isEmail es Sample.loaded)).
Proof.
  destruct (confirm_with_falsy_id_does_nothing Sample.isEmail Sample.loaded 1
              Sample.zed reachable_loaded eq_refl eq_refl eq_refl eq_refl)
    as (_ & _ & _ & Hen & _ & Hnoop & Hnever).
  split; [reflexivity|]. split; [exact Hen|]. split; [exact Hnoop|].
  exact Hnever.
Defined.


(* --------------------------------------------------------------------- *)
(** ** The screen as a whole *)
(* --------------------------------------------------------------------- *)

Lemma count_remove_any (f : nat * Parked -> bool) n l e :
  lookup n l = Some e ->
  length (filter f l)
  = length (filter f (remove n l)) + (if f (n, e) then 1 else 0).
Proof.
  induction l as [|[m e'] l IH]; simpl; [discriminate|].
  destruct (Nat.eqb_spec n m) as [->|_].
  - intros [= ->]. destruct (f (m, e)); simpl; lia.
  - intros H. simpl. specialize (IH H).
    destruct (f (m, e')); simpl; lia.
Qed.

(** *** Roles and messages *)

(** X7: the badge and the delete button of a row agree.  The button is
    disabled exactly when the badge has the default variant, and exactly
    then it carries the tooltip.  The badge is the default one exactly for
    a role that lower-cases to "admin", the secondary one exactly for a
    role that lower-cases to "comerciante", and it depends on the role only
    through its lower-case form. *)
Theorem badge_and_button_agree user role :
  (disabled (button (renderRow user)) = true
   <-> badge (renderRow user) = badge_default)
  /\ (disabled (button (renderRow user)) = true
      <-> button_title (button (renderRow user))
          = Some "No se puede eliminar administradores")
  /\ (disabled (button (renderRow user)) = false
      <-> button_title (button (renderRow user)) = None)
  /\ (getRoleBadgeVariant role = badge_default
      <-> Js.toLowerCase role = "admin")
  /\ (getRoleBadgeVariant role = badge_secondary
      <-> Js.toLowerCase role = "comerciante")
  /\ getRoleBadgeVariant (Js.toLowerCase role) = getRoleBadgeVariant role.
Proof.
  assert (Hdef : forall r, getRoleBadgeVariant r = badge_default
                           <-> Js.toLowerCase r = "admin").
  { intros r. unfold getRoleBadgeVariant; simpl.
    destruct (String.eqb_spec (Js.toLowerCase r) "admin") as [E|E].
    - tauto.
    - destruct (Js.toLowerCase r =? "comerciante")%string;
        [|destruct (Js.toLowerCase r =? "creador de ruta")%string];
        split; intros H; try discriminate H; contradiction. }
  split; [|split; [|split; [|split; [exact (Hdef role)|split]]]].
  - simpl. rewrite Hdef. unfold isAdmin. apply String.eqb_eq.
  - simpl. destruct (isAdmin user); split; intros H;
      try reflexivity; discriminate H.
  - simpl. destruct (isAdmin user); split; intros H;
      try reflexivity; discriminate H.
  - unfold getRoleBadgeVariant; simpl.
    destruct (String.eqb_spec (Js.toLowerCase role) "admin") as [E|E].
    + rewrite E. split; intros H; discriminate H.
    + destruct (String.eqb_spec (Js.toLowerCase role) "comerciante")
        as [E'|E']; [tauto|].
      destruct (Js.toLowerCase role =? "creador de ruta")%string;
        split; intros H; try discriminate H; contradiction.
  - unfold getRoleBadgeVariant. now rewrite toLowerCase_idempotent.
Qed.

Lemma allUnits_complete (c : ascii) : In c allUnits.
Proof.
  unfold allUnits. rewrite <- (ascii_nat_embedding c).
  apply in_map, in_seq. pose proof (nat_ascii_bounded c). lia.
Qed.

Lemma lowerUnit_sameLetter l c :
  plainUnit l = true ->
  (Js.lowerUnit c =? l)%char = sameLetter l c.
Proof.
  assert (Hall :
    forallb (fun l => forallb (fun c =>
      implb (plainUnit l)
            (Bool.eqb (Js.lowerUnit c =? l)%char (sameLetter l c)))
      allUnits) allUnits = true) by (vm_compute; reflexivity).
  rewrite forallb_forall in Hall.
  specialize (Hall l (allUnits_complete l)).
  rewrite forallb_forall in Hall.
  specialize (Hall c (allUnits_complete c)).
  intros Hp. rewrite Hp in Hall. simpl in Hall.
  now apply Bool.eqb_prop.
Qed.

Lemma toLowerCase_spells pattern s :
  plain pattern = true ->
  (Js.toLowerCase s =? pattern)%string = spells pattern s.
Proof.
  revert s. induction pattern as [|l pattern IH]; intros s Hp.
  - now destruct s.
  - simpl in Hp. apply andb_true_iff in Hp. destruct Hp as [Hl Hp].
    destruct s as [|c s]; [reflexivity|]. simpl.
    rewrite (lowerUnit_sameLetter _ _ Hl), (IH _ Hp).
    now destruct (sameLetter l c).
Qed.

(** X8: which roles count as the administrator's.  The delete button of a
    row is disabled exactly when the role spells "admin" with each letter in
    upper or lower case (32 spellings: "admin", "Admin", "ADMIN", ...); no
    other string of code units up to U+00FF is taken for it.  The badge
    follows the same reading of "admin" and of "comerciante". *)
Theorem admin_spellings user role :
  disabled (button (renderRow user)) = spells "admin" (Api.rol user)
  /\ getRoleBadgeVariant role
     = (if spells "admin" role then badge_default
        else if spells "comerciante" role then badge_secondary
        else badge_outline)
  /\ (spells "admin" role = true ->
      String.length role = 5 /\ Js.toLowerCase role = "admin").
Proof.
  split; [|split].
  - simpl. unfold isAdmin. now apply toLowerCase_spells.
  - unfold getRoleBadgeVariant; cbv zeta.
    rewrite !toLowerCase_spells by reflexivity.
    destruct (spells "admin" role); [reflexivity|].
    destruct (spells "comerciante" role); [reflexivity|].
    now destruct (spells "creador de ruta" role).
  - intros H. rewrite <- toLowerCase_spells in H by reflexivity.
    apply String.eqb_eq in H. split; [|exact H].
    now rewrite <- toLowerCase_length, H.
Qed.

Lemma string_app_assoc (a b c : string) :
  ((a ++ b) ++ c = a ++ (b ++ c))%string.
Proof. induction a as [|x a IH]; simpl; [reflexivity | now rewrite IH]. Qed.

(** X16: the text of a delete failure is one of four fixed texts and never
    the text the server sent, whereas a create failure shows the message of
    the thrown [Error] as it is.  A message with "500" anywhere in it gets
    the server-refused text, whatever else it holds. *)
Theorem delete_failure_text_is_fixed error :
  In (deleteErrorMessage error)
     [msg_delete_500; msg_delete_403; msg_delete_404; msg_delete_generic]
  /\ (forall before after,
        deleteErrorMessage (Js.ErrorObj (before ++ "500" ++ after)%string)
        = msg_delete_500)
  /\ (forall m, Js.includes m "4" = false -> Js.includes m "5" = false ->
        deleteErrorMessage (Js.ErrorObj m) = msg_delete_generic)
  /\ (forall m, createErrorMessage (Js.ErrorObj m) = m).
Proof.
  split; [|split; [|split]].
  - destruct error as [m|]; simpl; [|tauto].
    destruct (Js.includes m "500"); [tauto|].
    destruct (Js.includes m "403"); [tauto|].
    destruct (Js.includes m "404"); tauto.
  - intros before after. unfold deleteErrorMessage.
    assert (H : Js.includes (before ++ "500" ++ after)%string "500" = true)
      by (apply includes_spec; now exists before, after).
    now rewrite H.
  - intros m H4 H5.
    assert (Hsub : forall code digit rest,
               Js.includes m digit = false ->
               code = (digit ++ rest)%string ->
               Js.includes m code = false).
    { intros code digit rest Hd ->.
      destruct (Js.includes m (digit ++ rest)%string) eqn:E; [|reflexivity].
      apply includes_spec in E. destruct E as [b [a E]].
      assert (Js.includes m digit = true).
      { apply includes_spec. exists b, (rest ++ a)%string.
        now rewrite E, string_app_assoc. }
      congruence. }
    unfold deleteErrorMessage.
    rewrite (Hsub "500" "5" "00" H5 eq_refl)%string.
    rewrite (Hsub "403" "4" "03" H4 eq_refl)%string.
    now rewrite (Hsub "404" "4" "04" H4 eq_refl)%string.
  - reflexivity.
Qed.

Section Whole.

Variable isEmail : string -> bool.

Lemma Inv2_mounted : Inv2 isEmail mounted.
Proof.
  split; [|split].
  - intros _. cbv. lia.
  - reflexivity.
  - intros n v [H|[]]. discriminate H.
Qed.

Ltac inv2_split :=
  match goal with
  | H : Inv2 _ _ |- Inv2 _ _ =>
      destruct H as (Ha & Hb & Hc);
      unfold Inv2, getUsersInFlight in *; cbn
  end.

Ltac inv2_loading Ha :=
  let Hl := fresh "Hl" in
  intros Hl; try discriminate Hl;
  rewrite ?filter_app, ?length_app; simpl;
  try (specialize (Ha Hl)); try lia; try congruence.

Ltac inv2_refetch Hb :=
  rewrite ?filter_app, ?length_app; simpl; try lia.

Ltac inv2_valid Hc :=
  let n := fresh "n" in
  let v := fresh "v" in
  let Hin := fresh "Hin" in
  intros n v Hin;
  repeat (apply in_app_or in Hin; destruct Hin as [Hin|Hin]);
  try (eapply Hc; eassumption);
  simpl in Hin;
  repeat match goal with
         | H : _ \/ _ |- _ => destruct H
         | H : False |- _ => destruct H
         end;
  try discriminate;
  try match goal with
      | H : ObsRequest _ (createUser _) = ObsRequest _ (createUser _) |- _ =>
          injection H as _ <-; assumption
      end.

Ltac inv2_finish Ha Hb Hc :=
  split; [inv2_loading Ha | split; [inv2_refetch Hb | inv2_valid Hc]].

Lemma step_Inv2 e w :
  Inv w -> Inv2 isEmail w -> Inv2 isEmail (step isEmail e w).
Proof.
  intros HI H2. destruct e.
  - (* ClickDelete *)
    rewrite step_ClickDelete.
    destruct (isLoading (page w)) eqn:El; [assumption|].
    destruct (nth_error (users (page w)) i) as [user|]; [|assumption].
    destruct (isAdmin user); [assumption|].
    inv2_split. inv2_finish Ha Hb Hc.
  - (* ClickCancelDelete *)
    unfold step, render.
    destruct (isLoading (page w)) eqn:El; [assumption|].
    destruct (deleteId (page w)); [|assumption].
    inv2_split. inv2_finish Ha Hb Hc.
  - (* ClickConfirmDelete *)
    unfold step, render.
    destruct (isLoading (page w)) eqn:El; [assumption|].
    destruct (deleteId (page w)) as [id|]; [|assumption].
    unfold handleDelete; simpl.
    destruct (Z.eqb_spec id 0) as [->|Hne]; [assumption|].
    inv2_split. inv2_finish Ha Hb Hc.
  - (* AlertOpenChange *)
    unfold step, render.
    destruct (isLoading (page w)) eqn:El; [assumption|].
    destruct open; [assumption|].
    inv2_split. inv2_finish Ha Hb Hc.
  - (* AddDialogOpenChange *)
    unfold step, render.
    destruct (isLoading (page w)) eqn:El; [assumption|].
    inv2_split. inv2_finish Ha Hb Hc.
  - (* Input *)
    inv2_split. inv2_finish Ha Hb Hc.
  - (* ClickFormCancel *)
    inv2_split. inv2_finish Ha Hb Hc.
  - (* SubmitForm *)
    unfold step.
    destruct (isSubmitting (form w)) eqn:Hs; [assumption|].
    unfold handleSubmit.
    destruct (hasErrors (formSchema isEmail (values (form w)))) eqn:Hv.
    + inv2_split. inv2_finish Ha Hb Hc.
    + inv2_split. inv2_finish Ha Hb Hc.
  - (* Settle *)
    unfold step, settle.
    destruct (lookup n (pending w)) as [e|] eqn:Hl; [|assumption].
    pose proof (lookup_known _ _ _ (proj1 HI) Hl) as Hkn.
    pose proof (count_remove_any isGetUsers _ _ _ Hl) as Hrm.
    destruct e as [r k]. destruct r; simpl in Hkn; cbn in Hrm.
    + subst k. destruct s; simpl; try assumption;
        inv2_split; inv2_finish Ha Hb Hc.
    + subst k. destruct s; simpl; try assumption;
        inv2_split; inv2_finish Ha Hb Hc.
    + destruct Hkn as [Hne ->]. destruct s; simpl; try assumption;
        inv2_split; inv2_finish Ha Hb Hc.
Qed.

Lemma reachable_Inv2 w : reachable isEmail w -> Inv2 isEmail w.
Proof.
  induction 1 as [|e w Hr IH]; [exact Inv2_mounted|].
  apply step_Inv2; [now apply (reachable_Inv isEmail) | exact IH].
Qed.

(** No handler writes the values or the errors of the form. *)
Lemma exec_form p w :
  values (form (exec p w)) = values (form w)
  /\ errors (form (exec p w)) = errors (form w).
Proof.
  revert w. induction p as [|a k IH|r k _|f IHf k IHk]; intros w; simpl.
  - split; reflexivity.
  - destruct (IH (perform a w)) as [Hv He]. rewrite Hv, He.
    destruct a; split; reflexivity.
  - split; reflexivity.
  - destruct (IHk (exec f w)) as [Hv He]. rewrite Hv, He. apply IHf.
Qed.

Lemma exec_Fresh p w : Fresh w -> Fresh (exec p w).
Proof.
  revert w. induction p as [|a k IH|r k _|f IHf k IHk]; intros w Hw; simpl.
  - exact Hw.
  - apply IH. destruct a; exact Hw.
  - unfold Fresh, park; simpl. apply Forall_app. split.
    + eapply Forall_impl; [|exact Hw]. simpl. intros ne H. lia.
    + repeat constructor.
  - apply IHk, IHf, Hw.
Qed.

Lemma step_Fresh e w : Fresh w -> Fresh (step isEmail e w).
Proof.
  intros Hw. destruct e; simpl.
  - destruct (render (page w)) as [|t rows ao ad]; [exact Hw|].
    destruct (nth_error rows i) as [row|]; [|exact Hw].
    destruct (disabled (button row)); [exact Hw | now apply exec_Fresh].
  - destruct (render (page w)) as [|t rows [] ad]; exact Hw.
  - destruct (render (page w)) as [|t rows [] ad];
      [exact Hw | now apply exec_Fresh | exact Hw].
  - destruct (render (page w)); [exact Hw | now apply exec_Fresh].
  - destruct (render (page w)); exact Hw.
  - exact Hw.
  - exact Hw.
  - destruct (isSubmitting (form w)); [exact Hw|].
    unfold handleSubmit.
    destruct (hasErrors (formSchema isEmail (values (form w))));
      [exact Hw | apply exec_Fresh; exact Hw].
  - unfold settle. destruct (lookup n (pending w)) as [[r k]|]; [|exact Hw].
    destruct (outcome_for r s); [|exact Hw].
    apply exec_Fresh. unfold Fresh, unpark; simpl.
    now apply Forall_remove.
Qed.

Lemma reachable_Fresh w : reachable isEmail w -> Fresh w.
Proof.
  induction 1 as [|e w _ IH]; [|now apply step_Fresh].
  unfold Fresh; cbn. repeat constructor.
Qed.

Lemma lookup_app_fresh n l e :
  Forall (fun ne : nat * Parked => fst ne < n) l ->
  lookup n (l ++ [(n, e)]) = Some e /\ remove n (l ++ [(n, e)]) = l.
Proof.
  induction 1 as [|[m e'] l Hm _ IH]; simpl.
  - rewrite Nat.eqb_refl. split; reflexivity.
  - simpl in Hm. destruct (Nat.eqb_spec n m) as [->|_]; [lia|].
    destruct IH as [-> ->]. split; reflexivity.
Qed.

(* --------------------------------------------------------------------- *)
(** ** Further properties *)
(* --------------------------------------------------------------------- *)

(** X1: when [getUsers] resolves with [data], the collection is replaced by
    [data], loading is cleared and no notification is shown; the page then
    shows one row per user of [data], in the order of [data] and keyed by
    the ids, and the total reads the number of users.  The pending delete
    id, the dialog flag and the form are what they were. *)
Theorem fetch_success_renders_rows w n k data :
  reachable isEmail w ->
  lookup n (pending w) = Some (parked getUsers k) ->
  let w' := step isEmail (Settle n (fulfil_users data)) w in
  users (page w') = data
  /\ isLoading (page w') = false
  /\ trace w' = trace w
  /\ pending w' = remove n (pending w)
  /\ form w' = form w
  /\ render (page w')
     = Page (length data) (map renderRow data)
         (isSome (deleteId (page w))) (isAddUserOpen (page w))
  /\ length (rowsOf (render (page w'))) = length data
  /\ map key (rowsOf (render (page w'))) = map Api.id data.
Proof.
  intros Hr Hl. rewrite (pending_getUsers _ _ _ _ Hr Hl) in Hl.
  unfold step, settle. rewrite Hl. cbn.
  repeat (split; [reflexivity|]).
  split; [now rewrite length_map | now rewrite map_map].
Qed.


(** X3: the list is asked for once when the screen starts and once more
    after every deletion and every creation that succeeded, and at no other
    time: in every state the number of [getUsers] requests sent is one more
    than the number of success notifications shown. *)
Theorem refetch_after_every_mutation w :
  reachable isEmail w ->
  length (filter isGetUsersObs (trace w))
  = 1 + length (filter (isToast toast_deleted) (trace w))
      + length (filter (isToast toast_created) (trace w)).
Proof.
  intros Hr. exact (proj1 (proj2 (reachable_Inv2 _ Hr))).
Qed.

(** X4: the collection shown changes only when a [getUsers] request
    resolves, and then to what the request returned: neither a click nor
    the outcome of [deleteUser] or [createUser] patches the list. *)
Theorem users_change_only_on_fetch w e :
  reachable isEmail w ->
  users (page (step isEmail e w)) = users (page w)
  \/ exists n data,
       e = Settle n (fulfil_users data)
       /\ (exists k, lookup n (pending w) = Some (parked getUsers k))
       /\ users (page (step isEmail e w)) = data.
Proof.
  intros Hr. pose proof (reachable_Inv _ _ Hr) as HI. destruct e.
  - left. rewrite step_ClickDelete.
    destruct (isLoading (page w)); [reflexivity|].
    destruct (nth_error (users (page w)) i) as [user|]; [|reflexivity].
    now destruct (isAdmin user).
  - left. unfold step.
    destruct (render (page w)) as [|t rows [] ad]; reflexivity.
  - left. unfold step.
    destruct (render (page w)) as [|t rows [] ad]; try reflexivity.
    unfold handleDelete. destruct (Js.not (deleteId (page w)));
      [reflexivity|]. now destruct (deleteId (page w)).
  - left. unfold step. destruct (render (page w)); [reflexivity|].
    now destruct open.
  - left. unfold step. now destruct (render (page w)).
  - left. reflexivity.
  - left. reflexivity.
  - left. unfold step. destruct (isSubmitting (form w)); [reflexivity|].
    unfold handleSubmit.
    now destruct (hasErrors (formSchema isEmail (values (form w)))).
  - unfold step, settle.
    destruct (lookup n (pending w)) as [p|] eqn:Hl; [|now left].
    pose proof (lookup_known _ _ _ (proj1 HI) Hl) as Hkn.
    destruct p as [r k]. destruct r; simpl in Hkn.
    + subst k. destruct s; simpl; try (now left).
      right. exists n, data. split; [reflexivity|].
      split; [now exists fetchUsers_resume | reflexivity].
    + subst k. destruct s; simpl; now left.
    + destruct Hkn as [_ ->]. destruct s; simpl; now left.
Qed.

(** X5: the delete flow from end to end.  On a row of a user who is no
    administrator and whose id is not 0, the delete button records the id
    and opens the confirmation dialog; confirming sends [deleteUser] for
    that id and nothing else; when the request succeeds the success
    notification is shown, one fetch-all starts and the recorded id is
    cleared, the list itself being kept until the fetch returns. *)
Theorem delete_flow_end_to_end w i user :
  reachable isEmail w ->
  isLoading (page w) = false ->
  nth_error (users (page w)) i = Some user ->
  isAdmin user = false ->
  Api.id user <> 0%Z ->
  let w1 := step isEmail (ClickDelete i) w in
  let w2 := step isEmail ClickConfirmDelete w1 in
  let w3 := step isEmail (Settle (nextRequest w) fulfil_void) w2 in
  deleteId (page w1) = Some (Api.id user)
  /\ alertOpenOf (render (page w1)) = true
  /\ trace w2
     = trace w ++ [ObsConsoleLog "Delete clicked for user:" (Api.id user);
                   ObsRequest (nextRequest w) (deleteUser (Api.id user))]
  /\ trace w3
     = trace w2 ++ [ObsToast toast_deleted;
                    ObsRequest (S (nextRequest w)) getUsers]
  /\ deleteId (page w3) = None
  /\ isLoading (page w3) = true
  /\ users (page w3) = users (page w)
  /\ pending w3
     = pending w ++ [(S (nextRequest w), parked getUsers fetchUsers_resume)].
Proof.
  intros Hr Hl Hu Ha Hid w1 w2 w3.
  pose proof (reachable_Fresh _ Hr) as Hf.
  assert (E1 : w1 = exec (onClick (button (renderRow user))) w).
  { unfold w1. now rewrite step_ClickDelete, Hl, Hu, Ha. }
  assert (E2 : w2 = park (deleteUser (Api.id user)) handleDelete_resume w1).
  { unfold w2, step, render. rewrite E1. cbn. rewrite Hl.
    unfold handleDelete; simpl.
    destruct (Z.eqb_spec (Api.id user) 0) as [E|_]; [contradiction|].
    reflexivity. }
  destruct (lookup_app_fresh (nextRequest w) (pending w)
              (parked (deleteUser (Api.id user)) handleDelete_resume) Hf)
    as [Hlk Hrm].
  assert (E3 : w3 = exec (handleDelete_resume (Resolved tt))
                      (unpark (nextRequest w) w2)).
  { unfold w3, step, settle. rewrite E2, E1. cbn. now rewrite Hlk. }
  split; [rewrite E1; reflexivity|].
  split; [rewrite E1; unfold render; cbn; now rewrite Hl|].
  split; [rewrite E2, E1; cbn; now rewrite <- app_assoc|].
  rewrite E3, E2, E1. cbn. rewrite Hrm, <- !app_assoc.
  repeat split.
Qed.

(** X6: picking a user and dismissing the dialog is a round trip.  On a
    row of a user who is no administrator the delete button records the id,
    opens the confirmation dialog and logs the click, sending nothing;
    "Cancelar" or closing the dialog then restores the state of the page,
    again sending nothing; a report that the dialog opened changes
    nothing. *)
Theorem pick_and_dismiss_round_trip w i user :
  isLoading (page w) = false ->
  nth_error (users (page w)) i = Some user ->
  isAdmin user = false ->
  deleteId (page w) = None ->
  let w1 := step isEmail (ClickDelete i) w in
  deleteId (page w1) = Some (Api.id user)
  /\ alertOpenOf (render (page w1)) = true
  /\ trace w1
     = trace w ++ [ObsConsoleLog "Delete clicked for user:" (Api.id user)]
  /\ pending w1 = pending w
  /\ step isEmail (AlertOpenChange true) w1 = w1
  /\ forall e, e = ClickCancelDelete \/ e = AlertOpenChange false ->
       page (step isEmail e w1) = page w
       /\ form (step isEmail e w1) = form w
       /\ trace (step isEmail e w1) = trace w1
       /\ pending (step isEmail e w1) = pending w.
Proof.
  intros Hl Hu Ha Hd w1.
  assert (E1 : w1 = exec (onClick (button (renderRow user))) w).
  { unfold w1. now rewrite step_ClickDelete, Hl, Hu, Ha. }
  rewrite E1.
  split; [reflexivity|].
  split; [unfold render; cbn; now rewrite Hl|].
  split; [reflexivity|]. split; [reflexivity|].
  split; [unfold step, render; cbn; now rewrite Hl|].
  intros e [->| ->]; unfold step, render; cbn; rewrite Hl; cbn;
    (split; [clear - Hd; revert Hd; destruct (page w); simpl;
             intros ->; reflexivity
            | repeat split]).
Qed.

Lemma hasErrors_noErrors e : hasErrors e = false -> e = noErrors.
Proof.
  destruct e as [[|] [|] [|] [|]]; simpl; intros H;
    try discriminate H; reflexivity.
Qed.

(** X10: the creation flow from end to end.  With the submit button
    enabled and values that pass the schema, submitting clears the form's
    errors and sends one [createUser] request that carries the values of
    the form, the page being left as it is; when that request succeeds the
    success notification is shown, one fetch-all starts, the creation
    dialog is closed and the list is kept until the fetch returns. *)
Theorem create_flow_end_to_end w :
  reachable isEmail w ->
  isSubmitting (form w) = false ->
  hasErrors (formSchema isEmail (values (form w))) = false ->
  let w1 := step isEmail SubmitForm w in
  let w2 := step isEmail (Settle (nextRequest w) fulfil_void) w1 in
  trace w1
  = trace w ++ [ObsRequest (nextRequest w) (createUser (values (form w)))]
  /\ errors (form w1) = noErrors
  /\ page w1 = page w
  /\ trace w2
     = trace w1 ++ [ObsToast toast_created;
                    ObsRequest (S (nextRequest w)) getUsers]
  /\ isAddUserOpen (page w2) = false
  /\ isLoading (page w2) = true
  /\ users (page w2) = users (page w)
  /\ pending w2
     = pending w ++ [(S (nextRequest w), parked getUsers fetchUsers_resume)].
Proof.
  intros Hr Hs Hv w1 w2.
  pose proof (reachable_Fresh _ Hr) as Hf.
  destruct (lookup_app_fresh (nextRequest w) (pending w)
              (parked (createUser (values (form w)))
                 (onSubmit_resume addUserFormProps)) Hf) as [Hlk Hrm].
  assert (E1 : w1 = exec (onSubmit addUserFormProps (values (form w)))
                      (with_form (fun s => {| values := values s;
                                              errors := noErrors;
                                              isSubmitting := isSubmitting s |})
                         w)).
  { unfold w1, step, handleSubmit. rewrite Hs, Hv.
    now rewrite (hasErrors_noErrors _ Hv). }
  assert (E2 : w2 = exec (onSubmit_resume addUserFormProps (Resolved tt))
                      (unpark (nextRequest w) w1)).
  { unfold w2, step, settle. rewrite E1. cbn. now rewrite Hlk. }
  split; [rewrite E1; reflexivity|].
  split; [rewrite E1; reflexivity|].
  split; [rewrite E1; reflexivity|].
  rewrite E2, E1. cbn. rewrite Hrm, <- !app_assoc.
  repeat split.
Qed.

(** X11: no values that fail the schema ever reach the API: in every state
    of the screen, the values of every [createUser] request sent so far
    pass the schema. *)
Theorem only_valid_values_are_sent w n v :
  reachable isEmail w ->
  In (ObsRequest n (createUser v)) (trace w) ->
  hasErrors (formSchema isEmail v) = false.
Proof.
  intros Hr. exact (proj2 (proj2 (reachable_Inv2 _ Hr)) n v).
Qed.

(** What an event does to the values of the form. *)
Lemma step_values e w :
  values (form (step isEmail e w))
  = match e with
    | Input f s => setValue f s (values (form w))
    | _ => values (form w)
    end.
Proof.
  destruct e; simpl; try reflexivity.
  - destruct (render (page w)) as [|t rows ao ad]; [reflexivity|].
    destruct (nth_error rows i) as [row|]; [|reflexivity].
    destruct (disabled (button row)); [reflexivity | apply exec_form].
  - destruct (render (page w)) as [|t rows [] ad]; reflexivity.
  - destruct (render (page w)) as [|t rows [] ad]; try reflexivity.
    apply exec_form.
  - destruct (render (page w)); [reflexivity | apply exec_form].
  - destruct (render (page w)); reflexivity.
  - destruct (isSubmitting (form w)); [reflexivity|].
    unfold handleSubmit.
    destruct (hasErrors (formSchema isEmail (values (form w))));
      [reflexivity|].
    now rewrite (proj1 (exec_form _ _)).
  - unfold settle. destruct (lookup n (pending w)) as [[r k]|]; [|reflexivity].
    destruct (outcome_for r s); [|reflexivity].
    now rewrite (proj1 (exec_form _ _)).
Qed.

(** X12: through the controls of the form the role never fails the
    schema.  Whatever is typed, clicked and answered, as long as the role
    comes from the select, the role of the form is one of the three values
    of the schema, from the default on. *)
Theorem role_from_select_passes_schema es :
  forallb fromControls es = true ->
  let w := run isEmail es mounted in
  In (Values.rol (values (form w))) roles
  /\ rol_error (formSchema isEmail (values (form w))) = None.
Proof.
  intros Hes w.
  assert (Hin : In (Values.rol (values (form w))) roles).
  { unfold w. clear w.
    assert (H0 : In (Values.rol (values (form mounted))) roles)
      by (cbn; tauto).
    revert H0 Hes. generalize mounted.
    induction es as [|e es IH]; intros w0 H0 Hes; simpl; [exact H0|].
    simpl in Hes. apply andb_true_iff in Hes. destruct Hes as [He Hes].
    apply IH; [|exact Hes]. rewrite step_values.
    destruct e; try exact H0.
    destruct f; simpl; try exact H0.
    unfold fromControls in He. apply existsb_exists in He.
    destruct He as [item [Hitem Heq]]. apply String.eqb_eq in Heq.
    subst s. simpl in Hitem.
    destruct Hitem as [<-|[<-|[<-|[]]]]; simpl; tauto. }
  split; [exact Hin|].
  simpl. unfold isRole.
  assert (He : existsb (fun r => (Values.rol (values (form w)) =? r)%string)
                 roles = true).
  { apply existsb_exists. exists (Values.rol (values (form w))).
    split; [exact Hin | apply String.eqb_refl]. }
  now rewrite He.
Qed.

(** X13: "Cancelar" closes the creation dialog, so that the form is no
    longer mounted, and it sends nothing and withdraws nothing: a
    [createUser] request in flight stays in flight.  When that request
    then succeeds, the success notification is still shown and the list is
    still fetched again. *)
Theorem form_cancel_keeps_request w n v k :
  reachable isEmail w ->
  lookup n (pending w) = Some (parked (createUser v) k) ->
  let w1 := step isEmail ClickFormCancel w in
  let w2 := step isEmail (Settle n fulfil_void) w1 in
  isAddUserOpen (page w1) = false
  /\ formMounted (page w1) = false
  /\ trace w1 = trace w
  /\ pending w1 = pending w
  /\ trace w2
     = trace w
       ++ [ObsToast
             {| title := "Usuario creado";
                description :=
                  "El nuevo usuario ha sido agregado exitosamente.";
                variant := variant_unset |};
           ObsRequest (nextRequest w) getUsers]
  /\ isLoading (page w2) = true.
Proof.
  intros Hr Hl w1 w2.
  rewrite (pending_createUser _ _ _ _ _ Hr Hl) in Hl.
  split; [reflexivity|].
  split; [unfold w1, formMounted; cbn; apply andb_false_r|].
  split; [reflexivity|]. split; [reflexivity|].
  unfold w2, w1, step, settle. cbn. rewrite Hl. cbn.
  rewrite <- app_assoc. split; reflexivity.
Qed.

(** X14: requests come from their buttons only.  A [deleteUser] request
    is sent only by confirming in the open dialog, for the id recorded at
    that moment; a [createUser] request only by submitting while the submit
    button is enabled, with the values of the form at that moment. *)
Theorem requests_come_from_their_buttons w e n :
  reachable isEmail w ->
  (forall id,
      In (ObsRequest n (deleteUser id)) (trace (step isEmail e w)) ->
      ~ In (ObsRequest n (deleteUser id)) (trace w) ->
      e = ClickConfirmDelete
      /\ deleteId (page w) = Some id
      /\ isLoading (page w) = false)
  /\ (forall v,
      In (ObsRequest n (createUser v)) (trace (step isEmail e w)) ->
      ~ In (ObsRequest n (createUser v)) (trace w) ->
      e = SubmitForm
      /\ v = values (form w)
      /\ isSubmitting (form w) = false).
Proof.
  intros Hr. pose proof (reachable_Inv _ _ Hr) as HI.
  assert (Hnew : forall o new,
             In o (trace w ++ new) -> ~ In o (trace w) -> In o new).
  { intros o new Hin Hnot. apply in_app_or in Hin. tauto. }
  split; intros x Hin Hnot.
  - destruct e.
    + exfalso. revert Hin. rewrite step_ClickDelete.
      destruct (isLoading (page w)); [exact Hnot|].
      destruct (nth_error (users (page w)) i) as [user|]; [|exact Hnot].
      destruct (isAdmin user); [exact Hnot|]. cbn. intros Hin.
      apply Hnew in Hin; [|exact Hnot].
      destruct Hin as [H|[]]; discriminate H.
    + exfalso. revert Hin. unfold step, render.
      destruct (isLoading (page w)); [exact Hnot|].
      destruct (deleteId (page w)); exact Hnot.
    + revert Hin. unfold step, render.
      destruct (isLoading (page w)); [intros Hin; contradiction|].
      destruct (deleteId (page w)) as [id|]; [|intros Hin; contradiction].
      unfold handleDelete; simpl.
      destruct (Z.eqb_spec id 0); [intros Hin; contradiction|].
      intros Hin. apply Hnew in Hin; [|exact Hnot].
      destruct Hin as [H|[]]. injection H as _ <-. repeat split.
    + exfalso. revert Hin. unfold step, render.
      destruct (isLoading (page w)); [exact Hnot|].
      destruct open; exact Hnot.
    + exfalso. revert Hin. unfold step, render.
      destruct (isLoading (page w)); exact Hnot.
    + exfalso. exact (Hnot Hin).
    + exfalso. exact (Hnot Hin).
    + exfalso. revert Hin. unfold step.
      destruct (isSubmitting (form w)); [exact Hnot|].
      unfold handleSubmit.
      destruct (hasErrors (formSchema isEmail (values (form w))));
        [exact Hnot|].
      cbn. intros Hin. apply Hnew in Hin; [|exact Hnot].
      destruct Hin as [H|[]]; discriminate H.
    + exfalso. revert Hin. unfold step, settle.
      destruct (lookup n0 (pending w)) as [p|] eqn:Hl; [|exact Hnot].
      pose proof (lookup_known _ _ _ (proj1 HI) Hl) as Hkn.
      destruct p as [r k]. destruct r; simpl in Hkn.
      * subst k. destruct s; simpl; try exact Hnot; cbn; intros Hin;
          try (apply Hnew in Hin; [|exact Hnot]);
          try contradiction;
          destruct Hin as [H|[]]; discriminate H.
      * subst k. destruct s; simpl; try exact Hnot; cbn;
          rewrite <- ?app_assoc; intros Hin;
          (apply Hnew in Hin; [|exact Hnot]);
          simpl in Hin; decompose [or] Hin; try discriminate;
          contradiction.
      * destruct Hkn as [_ ->]. destruct s; simpl; try exact Hnot; cbn;
          rewrite <- ?app_assoc; intros Hin;
          (apply Hnew in Hin; [|exact Hnot]);
          simpl in Hin; decompose [or] Hin; try discriminate;
          contradiction.
  - destruct e.
    + exfalso. revert Hin. rewrite step_ClickDelete.
      destruct (isLoading (page w)); [exact Hnot|].
      destruct (nth_error (users (page w)) i) as [user|]; [|exact Hnot].
      destruct (isAdmin user); [exact Hnot|]. cbn. intros Hin.
      apply Hnew in Hin; [|exact Hnot].
      destruct Hin as [H|[]]; discriminate H.
    + exfalso. revert Hin. unfold step, render.
      destruct (isLoading (page w)); [exact Hnot|].
      destruct (deleteId (page w)); exact Hnot.
    + exfalso. revert Hin. unfold step, render.
      destruct (isLoading (page w)); [exact Hnot|].
      destruct (deleteId (page w)) as [id|]; [|exact Hnot].
      unfold handleDelete; simpl.
      destruct (Z.eqb_spec id 0); [exact Hnot|].
      intros Hin. apply Hnew in Hin; [|exact Hnot].
      destruct Hin as [H|[]]; discriminate H.
    + exfalso. revert Hin. unfold step, render.
      destruct (isLoading (page w)); [exact Hnot|].
      destruct open; exact Hnot.
    + exfalso. revert Hin. unfold step, render.
      destruct (isLoading (page w)); exact Hnot.
    + exfalso. exact (Hnot Hin).
    + exfalso. exact (Hnot Hin).
    + revert Hin. unfold step.
      destruct (isSubmitting (form w)); [intros Hin; contradiction|].
      unfold handleSubmit.
      destruct (hasErrors (formSchema isEmail (values (form w))));
        [intros Hin; contradiction|].
      cbn. intros Hin. apply Hnew in Hin; [|exact Hnot].
      destruct Hin as [H|[]]. injection H as _ <-. repeat split.
    + exfalso. revert Hin. unfold step, settle.
      destruct (lookup n0 (pending w)) as [p|] eqn:Hl; [|exact Hnot].
      pose proof (lookup_known _ _ _ (proj1 HI) Hl) as Hkn.
      destruct p as [r k]. destruct r; simpl in Hkn.
      * subst k. destruct s; simpl; try exact Hnot; cbn; intros Hin;
          try (apply Hnew in Hin; [|exact Hnot]);
          try contradiction;
          destruct Hin as [H|[]]; discriminate H.
      * subst k. destruct s; simpl; try exact Hnot; cbn;
          rewrite <- ?app_assoc; intros Hin;
          (apply Hnew in Hin; [|exact Hnot]);
          simpl in Hin; decompose [or] Hin; try discriminate;
          contradiction.
      * destruct Hkn as [_ ->]. destruct s; simpl; try exact Hnot; cbn;
          rewrite <- ?app_assoc; intros Hin;
          (apply Hnew in Hin; [|exact Hnot]);
          simpl in Hin; decompose [or] Hin; try discriminate;
          contradiction.
Qed.

(** X17: an id gets recorded for deletion in one way only: by a click,
    while the page is shown, on the delete button of a row whose user has
    this id and is no administrator.  No other click and no answer of the
    API records an id. *)
Theorem pending_id_comes_from_enabled_row w e id :
  reachable isEmail w ->
  deleteId (page (step isEmail e w)) = Some id ->
  deleteId (page w) = Some id
  \/ exists i user,
       e = ClickDelete i
       /\ isLoading (page w) = false
       /\ nth_error (users (page w)) i = Some user
       /\ Api.id user = id
       /\ disabled (button (renderRow user)) = false.
Proof.
  intros Hr. pose proof (reachable_Inv _ _ Hr) as HI.
  destruct (isLoading (page w)) eqn:El; destruct e.
  all: try (rewrite step_ClickDelete, El);
       try (unfold step, render; rewrite El).
  all: try (intros H; left; exact H).
  - (* SubmitForm, while the skeleton is shown *)
    unfold step. destruct (isSubmitting (form w)); [intros H; left; exact H|].
    unfold handleSubmit.
    destruct (hasErrors (formSchema isEmail (values (form w))));
      cbn; intros H; left; exact H.
  - (* Settle, while the skeleton is shown *)
    unfold step, settle.
    destruct (lookup n (pending w)) as [p|] eqn:Hl;
      [|intros H; left; exact H].
    pose proof (lookup_known _ _ _ (proj1 HI) Hl) as Hkn.
    destruct p as [r k]. destruct r; simpl in Hkn.
    + subst k. destruct s; simpl; cbn; intros H; left; exact H.
    + subst k. destruct s; simpl; cbn; intros H; left; exact H.
    + destruct Hkn as [_ ->]. destruct s; simpl; cbn; intros H;
        try discriminate H; left; exact H.
  - (* ClickDelete *)
    destruct (nth_error (users (page w)) i) as [user|] eqn:Eu;
      [|intros H; left; exact H].
    destruct (isAdmin user) eqn:Ea; [intros H; left; exact H|].
    cbn. intros [= <-]. right. exists i, user. repeat split; assumption.
  - (* ClickCancelDelete *)
    destruct (deleteId (page w)) eqn:Ed; cbn; rewrite ?Ed; intros H;
      discriminate H.
  - (* ClickConfirmDelete *)
    destruct (deleteId (page w)) as [d|] eqn:Ed;
      [|rewrite Ed; intros H; discriminate H].
    unfold handleDelete; simpl.
    destruct (Z.eqb_spec d 0); cbn; rewrite Ed; intros H; left; exact H.
  - (* AlertOpenChange *)
    destruct open; cbn; [intros H; left; exact H | intros H; discriminate H].
  - (* SubmitForm *)
    unfold step. destruct (isSubmitting (form w)); [intros H; left; exact H|].
    unfold handleSubmit.
    destruct (hasErrors (formSchema isEmail (values (form w))));
      cbn; intros H; left; exact H.
  - (* Settle *)
    unfold step, settle.
    destruct (lookup n (pending w)) as [p|] eqn:Hl;
      [|intros H; left; exact H].
    pose proof (lookup_known _ _ _ (proj1 HI) Hl) as Hkn.
    destruct p as [r k]. destruct r; simpl in Hkn.
    + subst k. destruct s; simpl; cbn; intros H; left; exact H.
    + subst k. destruct s; simpl; cbn; intros H; left; exact H.
    + destruct Hkn as [_ ->]. destruct s; simpl; cbn; intros H;
        try discriminate H; left; exact H.
Qed.

End Whole.

(* --------------------------------------------------------------------- *)
(** ** The further properties on the sample states *)
(* --------------------------------------------------------------------- *)

Lemma reachable_askingAna : reachable Sample.isEmail Scenario.askingAna.
Proof. unfold Scenario.askingAna. apply reach_step, reachable_loaded. Qed.

Lemma reachable_filled : reachable Sample.isEmail Sample.filled.
Proof.
  unfold Sample.filled. do 4 apply reach_step. exact reachable_loaded.
Qed.

Lemma reachable_created : reachable Sample.isEmail Scenario.created.
Proof. unfold Scenario.created. apply reach_step, reachable_submitting. Qed.

(** The four users of the sample arrive: four rows, keyed 3, 0, 7, 9. *)
Lemma fetch_success_renders_rows_witness :
  users (page Sample.loaded)
  = [Sample.ana; Sample.zed; Sample.root; Sample.eva]
  /\ isLoading (page Sample.loaded) = false
  /\ length (rowsOf (render (page Sample.loaded))) = 4
  /\ map key (rowsOf (render (page Sample.loaded))) = [3; 0; 7; 9]%Z.
Proof.
  destruct (fetch_success_renders_rows Sample.isEmail mounted 0
              fetchUsers_resume
              [Sample.ana; Sample.zed; Sample.root; Sample.eva]
              (reach_mounted Sample.isEmail) eq_refl)
    as (Hu & Hl & _ & _ & _ & _ & Hn & Hk).
  split; [exact Hu|]. split; [exact Hl|]. split; [exact Hn | exact Hk].
Defined.


(** After one creation: two fetches, one success notification. *)
Lemma refetch_after_every_mutation_witness :
  length (filter isGetUsersObs (trace Scenario.created)) = 2
  /\ length (filter (isToast toast_created) (trace Scenario.created)) = 1.
Proof.
  pose proof (refetch_after_every_mutation Sample.isEmail Scenario.created
                reachable_created) as H.
  split; [rewrite H|]; reflexivity.
Defined.

(** A failed deletion leaves the four users in the list. *)
Lemma users_change_only_on_fetch_witness :
  users (page (step Sample.isEmail (Settle 1 (reject Js.NotAnError))
                 Sample.deleting))
  = [Sample.ana; Sample.zed; Sample.root; Sample.eva].
Proof.
  destruct (users_change_only_on_fetch Sample.isEmail Sample.deleting
              (Settle 1 (reject Js.NotAnError)) reachable_deleting)
    as [H|[n [data [H _]]]].
  - rewrite H. reflexivity.
  - discriminate H.
Defined.

(** Ana (id 3) is picked, the deletion confirmed and accepted. *)
Lemma delete_flow_end_to_end_witness :
  let w3 :=
    step Sample.isEmail (Settle 1 fulfil_void)
      (step Sample.isEmail ClickConfirmDelete
         (step Sample.isEmail (ClickDelete 0) Sample.loaded)) in
  trace w3
  = trace Sample.loaded
    ++ [ObsConsoleLog "Delete clicked for user:" 3;
        ObsRequest 1 (deleteUser 3);
        ObsToast toast_deleted;
        ObsRequest 2 getUsers]
  /\ deleteId (page w3) = None
  /\ isLoading (page w3) = true.
Proof.
  cbv zeta.
  assert (Hne : Api.id Sample.ana <> 0%Z) by discriminate.
  destruct (delete_flow_end_to_end Sample.isEmail Sample.loaded 0 Sample.ana
              reachable_loaded eq_refl eq_refl eq_refl Hne)
    as (_ & _ & H2 & H3 & Hd & Hl & _).
  split; [|split; [exact Hd | exact Hl]].
  etransitivity; [exact H3|]. rewrite H2. reflexivity.
Defined.

(** Ana is picked and the dialog dismissed: the page is as before. *)
Lemma pick_and_dismiss_round_trip_witness :
  deleteId (page Scenario.askingAna) = Some 3%Z
  /\ page (step Sample.isEmail ClickCancelDelete Scenario.askingAna)
     = page Sample.loaded
  /\ page (step Sample.isEmail (AlertOpenChange false) Scenario.askingAna)
     = page Sample.loaded
  /\ pending (step Sample.isEmail ClickCancelDelete Scenario.askingAna) = [].
Proof.
  destruct (pick_and_dismiss_round_trip Sample.isEmail Sample.loaded 0
              Sample.ana eq_refl eq_refl eq_refl eq_refl)
    as (Hd & _ & _ & _ & _ & Hback).
  split; [exact Hd|].
  split; [exact (proj1 (Hback ClickCancelDelete (or_introl eq_refl)))|].
  split; [exact (proj1 (Hback (AlertOpenChange false)
                          (or_intror eq_refl)))|].
  exact (proj2 (proj2 (proj2 (Hback ClickCancelDelete (or_introl eq_refl))))).
Defined.

Lemma badge_and_button_agree_witness :
  disabled (button (renderRow Sample.root)) = true
  /\ button_title (button (renderRow Sample.ana)) = None
  /\ getRoleBadgeVariant "Comerciante" = badge_secondary.
Proof.
  destruct (badge_and_button_agree Sample.root "Comerciante")
    as (Hd & _ & _ & _ & Hs & _).
  destruct (badge_and_button_agree Sample.ana "Comerciante")
    as (_ & _ & Ht & _).
  split; [exact (proj2 Hd eq_refl)|].
  split; [exact (proj1 Ht eq_refl)|]. exact (proj2 Hs eq_refl).
Defined.

Lemma admin_spellings_witness :
  disabled (button (renderRow Sample.eva)) = true
  /\ getRoleBadgeVariant "aDmIn" = badge_default
  /\ Js.toLowerCase "aDmIn" = "admin".
Proof.
  destruct (admin_spellings Sample.eva "aDmIn") as (Hd & Hb & Hl).
  split; [rewrite Hd; reflexivity|].
  split; [rewrite Hb; reflexivity|]. exact (proj2 (Hl eq_refl)).
Defined.

(** John Doe is created. *)
Lemma create_flow_end_to_end_witness :
  let w2 :=
    step Sample.isEmail (Settle 1 fulfil_void)
      (step Sample.isEmail SubmitForm Sample.filled) in
  trace w2
  = trace Sample.filled
    ++ [ObsRequest 1 (createUser (values (form Sample.filled)));
        ObsToast toast_created;
        ObsRequest 2 getUsers]
  /\ isAddUserOpen (page w2) = false
  /\ isLoading (page w2) = true.
Proof.
  cbv zeta.
  destruct (create_flow_end_to_end Sample.isEmail Sample.filled
              reachable_filled eq_refl eq_refl)
    as (H1 & _ & _ & H2 & Ho & Hl & _).
  split; [|split; [exact Ho | exact Hl]].
  etransitivity; [exact H2|]. rewrite H1. reflexivity.
Defined.

Lemma only_valid_values_are_sent_witness :
  hasErrors (formSchema Sample.isEmail (values (form Sample.filled))) = false.
Proof.
  apply (only_valid_values_are_sent Sample.isEmail Sample.submitting 1
           (values (form Sample.filled)) reachable_submitting).
  right. left. reflexivity.
Defined.

Lemma role_from_select_passes_schema_witness :
  let es := [AddDialogOpenChange true; Input f_rol "admin";
             Input f_nombre "Jo"; SubmitForm] in
  In (Values.rol (values (form (run Sample.isEmail es mounted)))) roles
  /\ rol_error (formSchema Sample.isEmail
                  (values (form (run Sample.isEmail es mounted)))) = None.
Proof.
  cbv zeta.
  exact (role_from_select_passes_schema Sample.isEmail
           [AddDialogOpenChange true; Input f_rol "admin";
            Input f_nombre "Jo"; SubmitForm] eq_refl).
Defined.

(** The form is dismissed while John Doe's creation is in flight. *)
Lemma form_cancel_keeps_request_witness :
  isAddUserOpen (page Scenario.dismissed) = false
  /\ formMounted (page Scenario.dismissed) = false
  /\ pending Scenario.dismissed = pending Sample.submitting
  /\ trace (step Sample.isEmail (Settle 1 fulfil_void) Scenario.dismissed)
     = trace Sample.submitting
       ++ [ObsToast
             {| title := "Usuario creado";
                description :=
                  "El nuevo usuario ha sido agregado exitosamente.";
                variant := variant_unset |};
           ObsRequest 2 getUsers].
Proof.
  destruct (form_cancel_keeps_request Sample.isEmail Sample.submitting 1
              (values (form Sample.filled))
              (onSubmit_resume addUserFormProps)
              reachable_submitting eq_refl)
    as (Ho & Hm & _ & Hp & Ht & _).
  split; [exact Ho|]. split; [exact Hm|]. split; [exact Hp | exact Ht].
Defined.

Lemma requests_come_from_their_buttons_witness :
  deleteId (page Scenario.askingAna) = Some 3%Z
  /\ isLoading (page Scenario.askingAna) = false.
Proof.
  destruct (requests_come_from_their_buttons Sample.isEmail
              Scenario.askingAna ClickConfirmDelete 1 reachable_askingAna)
    as (Hdel & _).
  assert (Hin : In (ObsRequest 1 (deleteUser 3))
                  (trace (step Sample.isEmail ClickConfirmDelete
                            Scenario.askingAna)))
    by (right; right; left; reflexivity).
  assert (Hnot : ~ In (ObsRequest 1 (deleteUser 3))
                     (trace Scenario.askingAna)).
  { intros [H|[H|[]]]; discriminate H. }
  destruct (Hdel 3%Z Hin Hnot) as (_ & Hd & Hl).
  split; [exact Hd | exact Hl].
Defined.

Lemma delete_failure_text_is_fixed_witness :
  deleteErrorMessage (Js.ErrorObj "HTTP 500 Internal Server Error")
  = msg_delete_500
  /\ deleteErrorMessage (Js.ErrorObj "Failed to fetch") = msg_delete_generic.
Proof.
  destruct (delete_failure_text_is_fixed
              (Js.ErrorObj "Failed to fetch")) as (_ & H5 & Hg & _).
  split; [exact (H5 "HTTP " " Internal Server Error")|].
  exact (Hg "Failed to fetch" eq_refl eq_refl).
Defined.

Lemma pending_id_comes_from_enabled_row_witness :
  deleteId (page Sample.loaded) = Some 3%Z
  \/ exists i user,
       ClickDelete 0 = ClickDelete i
       /\ isLoading (page Sample.loaded) = false
       /\ nth_error (users (page Sample.loaded)) i = Some user
       /\ Api.id user = 3%Z
       /\ disabled (button (renderRow user)) = false.
Proof.
  exact (pending_id_comes_from_enabled_row Sample.isEmail Sample.loaded
           (ClickDelete 0) 3 reachable_loaded eq_refl).
Defined.
